(** * AES-128 test-vector generator: [scripts/gen_vectors.py]

    A shallow embedding of the oracle adapter [openssl_aes128_ecb_encrypt]
    and of the generator [main], with the properties of the written
    vector file proved about them.

    Python values are modelled as follows: [bytes] is [list byte], [str]
    is [string], [int] is [Z].  Everything the script does to the outside
    world (starting the [openssl] process, drawing from [secrets], opening
    and writing the output file, printing) is recorded, in order, in a
    trace of events; computations are functions from the trace so far to
    an outcome (a value or a raised exception) and the extended trace. *)

From Stdlib Require Import List String Ascii Bool Arith ZArith Lia
  DecimalString.
From Stdlib Require Import Strings.Byte.
Import ListNotations.

Open Scope string_scope.
Open Scope nat_scope.
Open Scope list_scope.

(** String concatenation, Python's [+] on [str]; [++] is kept for lists. *)
Infix "+++" := String.append (right associativity, at level 60).

(** ** Text helpers *)

Module Text.

(** The line feed, Python's ["\n"]. *)
Definition lf : ascii := ascii_of_nat 10.
Definition sp : ascii := " "%char.
Definition nl : string := String lf EmptyString.

(** [sep.join(xs)] for a separator [sep]. *)
Fixpoint join (sep : string) (xs : list string) : string :=
  match xs with
  | [] => EmptyString
  | [x] => x
  | x :: rest => x +++ sep +++ join sep rest
  end.

(** [s.split(c)] for a one-character separator [c]: the pieces between
    the occurrences of [c], empty pieces included. *)
Fixpoint split (c : ascii) (s : string) : list string :=
  match s with
  | EmptyString => [EmptyString]
  | String a r =>
      if Ascii.eqb a c then EmptyString :: split c r
      else match split c r with
           | h :: t => String a h :: t
           | [] => [String a EmptyString]
           end
  end.

(** All characters of [s] satisfy [p]. *)
Fixpoint all (p : ascii -> bool) (s : string) : bool :=
  match s with
  | EmptyString => true
  | String a r => p a && all p r
  end.

(** The characters of [s] all differ from [c]. *)
Definition avoids (c : ascii) (s : string) : bool :=
  all (fun a => negb (Ascii.eqb a c)) s.

(** [str(n)] for a natural number. *)
Definition str_of_nat (n : nat) : string :=
  NilEmpty.string_of_uint (Nat.to_uint n).

End Text.

(** ** Hexadecimal: [bytes.hex] and [bytes.fromhex] *)

Module Hex.

Definition alphabet : string := "0123456789abcdef".

(** The lowercase hexadecimal digit of a value below 16. *)
Definition digit (n : nat) : ascii :=
  match String.get n alphabet with
  | Some c => c
  | None => "0"%char
  end.

(** [b.hex()]: two lowercase digits per byte, high nibble first. *)
Fixpoint bytes_hex (bs : list byte) : string :=
  match bs with
  | [] => EmptyString
  | b :: rest =>
      let n := Byte.to_nat b in
      String (digit (n / 16)) (String (digit (n mod 16)) (bytes_hex rest))
  end.

(** The value of a hexadecimal digit, of either case. *)
Definition digit_value (c : ascii) : option nat :=
  let n := nat_of_ascii c in
  if (48 <=? n) && (n <=? 57) then Some (n - 48)
  else if (97 <=? n) && (n <=? 102) then Some (n - 87)
  else if (65 <=? n) && (n <=? 70) then Some (n - 55)
  else None.

(** ASCII white space, which [bytes.fromhex] skips between bytes:
    space, tab, line feed, vertical tab, form feed, carriage return. *)
Definition is_space (c : ascii) : bool :=
  let n := nat_of_ascii c in
  (n =? 32) || ((9 <=? n) && (n <=? 13)).

Definition byte_of_nibbles (hi lo : nat) : byte :=
  match Byte.of_nat (16 * hi + lo) with
  | Some b => b
  | None => x00
  end.

(** [bytes.fromhex(s)]: white space is skipped before each byte, then two
    adjacent hexadecimal digits are read; anything else is an error
    ([None], Python's [ValueError]). *)
Fixpoint bytes_fromhex (s : string) : option (list byte) :=
  match s with
  | EmptyString => Some []
  | String c r =>
      if is_space c then bytes_fromhex r
      else
        match r with
        | EmptyString => None
        | String d r' =>
            match digit_value c, digit_value d with
            | Some hi, Some lo =>
                match bytes_fromhex r' with
                | Some bs => Some (byte_of_nibbles hi lo :: bs)
                | None => None
                end
            | _, _ => None
            end
        end
  end.

(** A lowercase hexadecimal digit. *)
Definition is_lower_hex (c : ascii) : bool :=
  let n := nat_of_ascii c in
  ((48 <=? n) && (n <=? 57)) || ((97 <=? n) && (n <=? 102)).

(** A field of the vector file: exactly 32 lowercase hexadecimal
    characters. *)
Definition is_field (s : string) : bool :=
  (String.length s =? 32) && Text.all is_lower_hex s.

End Hex.

(** ** The outside world *)

(** What the script does to its environment, one event per action. *)
Inductive event : Type :=
| EvRandom (n : nat)
    (** [secrets.token_bytes(n)] *)
| EvSpawn (argv : list string) (input : list byte)
    (** [subprocess.run(argv, input=input, ...)] *)
| EvOpen (path : string)
    (** [open(path, "w")]: the file is created or truncated *)
| EvWrite (path : string) (data : string)
    (** [f.write(data)] on the file opened at [path] *)
| EvClose (path : string)
    (** leaving the [with] block: the file is closed *)
| EvFault (path : string) (held : string)
    (** a write or a close on the file at [path] failed, and the file is
        left holding [held] *)
| EvPrint (line : string).
    (** [print(line)] *)

Definition trace : Type := list event.

(** The [CompletedProcess] of [subprocess.run]. *)
Record completed_process : Type := {
  returncode : Z;
  stdout : list byte;
  stderr : list byte
}.

(** The exceptions the script can raise. *)
Inductive exn : Type :=
| ValueError
| AssertionError
| RuntimeError (msg : string)
| OSError.

(** What [open], [f.write], closing a file and [print] can raise:
    [OSError] (or a subclass of it: no such directory, permission, no
    space left, broken pipe), or [ValueError] (or a subclass of it: a
    path with an embedded null byte, [UnicodeEncodeError]). *)
Inductive io_error : Type :=
| IoOSError
| IoValueError.

Definition exn_of_io (e : io_error) : exn :=
  match e with
  | IoOSError => OSError
  | IoValueError => ValueError
  end.

Inductive outcome (A : Type) : Type :=
| Ok (a : A)
| Raise (e : exn).
Arguments Ok {A} a.
Arguments Raise {A} e.

(** The environment the script runs in.  The external commands, the
    randomness source, the file system and two functions of the Python
    library that the script only calls are left open:
    - [run_process i argv input] is what the [i]-th started process
      (counting from 0) answers; [None] when it cannot be started;
    - [entropy i] is the [i]-th byte the randomness source hands out;
    - [open_error path] is what [open(path, "w")] raises, [None] when
      the file is opened (and so created or truncated);
    - [write_error path data] is what [f.write(data)] raises on the file
      opened at [path], with what the file is left holding; [None] when
      the write returns;
    - [close_error path] is what closing the file at [path] raises, with
      what the file is left holding; [None] when everything written is in
      the file;
    - [print_error line] is what [print(line)] raises, [None] when the
      line is printed;
    - [py_int] is [int] on a string, [None] for [ValueError];
    - [decode_ignore] is [bytes.decode(errors="ignore")]. *)
Record platform : Type := {
  run_process : nat -> list string -> list byte -> option completed_process;
  entropy : nat -> byte;
  open_error : string -> option io_error;
  write_error : string -> string -> option (string * io_error);
  close_error : string -> option (string * io_error);
  print_error : string -> option io_error;
  py_int : string -> option Z;
  decode_ignore : list byte -> string
}.

(** Number of processes started so far. *)
Fixpoint spawned (t : trace) : nat :=
  match t with
  | [] => 0
  | EvSpawn _ _ :: r => S (spawned r)
  | _ :: r => spawned r
  end.

(** Number of random bytes drawn so far. *)
Fixpoint drawn (t : trace) : nat :=
  match t with
  | [] => 0
  | EvRandom n :: r => n + drawn r
  | _ :: r => drawn r
  end.

(** Events that touch the output sink. *)
Definition is_sink_event (e : event) : bool :=
  match e with
  | EvOpen _ | EvWrite _ _ | EvClose _ | EvFault _ _ => true
  | _ => false
  end.

(** The effect of one event on the contents of the file at [path]. *)
Definition apply_event (path : string) (c : option string) (e : event)
  : option string :=
  match e with
  | EvOpen p => if String.eqb p path then Some EmptyString else c
  | EvWrite p d =>
      if String.eqb p path
      then Some (match c with Some s => s +++ d | None => d end)
      else c
  | EvFault p held => if String.eqb p path then Some held else c
  | _ => c
  end.

(** The contents of the file at [path] after the trace [t], starting from
    a file system where it does not exist. *)
Definition file_contents (path : string) (t : trace) : option string :=
  fold_left (apply_event path) t None.

(** ** Computations *)

Definition M (A : Type) : Type := trace -> outcome A * trace.

Definition ret {A} (a : A) : M A := fun t => (Ok a, t).

Definition raise {A} (e : exn) : M A := fun t => (Raise e, t).

Definition bind {A B} (m : M A) (k : A -> M B) : M B :=
  fun t =>
    match m t with
    | (Ok a, t') => k a t'
    | (Raise e, t') => (Raise e, t')
    end.

Notation "x <- m ;; k" := (bind m (fun x => k))
  (at level 61, m at next level, right associativity).
Notation "m ;;; k" := (bind m (fun _ => k))
  (at level 61, right associativity).

Definition emit (e : event) : M unit := fun t => (Ok tt, t ++ [e]).

(** [assert b] *)
Definition py_assert (b : bool) : M unit :=
  if b then ret tt else raise AssertionError.

(** A library call that raises [ValueError] on bad input. *)
Definition or_value_error {A} (o : option A) : M A :=
  match o with
  | Some a => ret a
  | None => raise ValueError
  end.

(** [try: body finally: fin], which is also what a [with] block does
    with the closing of its file: [fin] runs whatever [body] did, and an
    exception of [fin] takes the place of the one of [body]. *)
Definition try_finally {A} (body : M A) (fin : M unit) : M A :=
  fun t =>
    match body t with
    | (Ok a, t1) =>
        match fin t1 with
        | (Ok _, t2) => (Ok a, t2)
        | (Raise e, t2) => (Raise e, t2)
        end
    | (Raise e, t1) =>
        match fin t1 with
        | (Ok _, t2) => (Raise e, t2)
        | (Raise e', t2) => (Raise e', t2)
        end
    end.

(** [for _ in range(k): s = body(s)] *)
Fixpoint for_range {S : Type} (k : nat) (body : S -> M S) (s : S) : M S :=
  match k with
  | O => ret s
  | S k' => s' <- body s ;; for_range k' body s'
  end.

Section Script.

Variable pf : platform.

(** [secrets.token_bytes(n)]: the next [n] bytes of the source. *)
Definition token_bytes (n : nat) : M (list byte) :=
  fun t => (Ok (map (entropy pf) (seq (drawn t) n)), t ++ [EvRandom n]).

(** [subprocess.run(argv, input=input, stdout=PIPE, stderr=PIPE,
    check=False)] *)
Definition subprocess_run (argv : list string) (input : list byte)
  : M completed_process :=
  fun t =>
    match run_process pf (spawned t) argv input with
    | Some p => (Ok p, t ++ [EvSpawn argv input])
    | None => (Raise OSError, t ++ [EvSpawn argv input])
    end.

(** [open(path, "w")] *)
Definition open_w (path : string) : M unit :=
  match open_error pf path with
  | None => emit (EvOpen path)
  | Some e => raise (exn_of_io e)
  end.

(** [f.write(data)] on the file opened at [path] *)
Definition f_write (path data : string) : M unit :=
  emit (EvWrite path data) ;;;
  match write_error pf path data with
  | None => ret tt
  | Some (held, e) => emit (EvFault path held) ;;; raise (exn_of_io e)
  end.

(** Closing the file opened at [path], at the end of the [with] block. *)
Definition f_close (path : string) : M unit :=
  emit (EvClose path) ;;;
  match close_error pf path with
  | None => ret tt
  | Some (held, e) => emit (EvFault path held) ;;; raise (exn_of_io e)
  end.

(** [print(line)] *)
Definition py_print (line : string) : M unit :=
  match print_error pf line with
  | None => emit (EvPrint line)
  | Some e => raise (exn_of_io e)
  end.

(** ** The oracle adapter *)

Definition openssl_argv (key_hex : string) : list string :=
  ["openssl"; "enc"; "-aes-128-ecb"; "-K"; key_hex; "-nosalt"; "-nopad"].

Definition openssl_aes128_ecb_encrypt (key_hex pt_hex : string)
  : M string :=
  key <- or_value_error (Hex.bytes_fromhex key_hex) ;;
  pt <- or_value_error (Hex.bytes_fromhex pt_hex) ;;
  py_assert ((List.length key =? 16) && (List.length pt =? 16)) ;;;
  p <- subprocess_run (openssl_argv key_hex) pt ;;
  if negb (returncode p =? 0)%Z then
    raise (RuntimeError
             ("OpenSSL failed:" +++ Text.nl +++ decode_ignore pf (stderr p)))
  else
    let ct := stdout p in
    py_assert (List.length ct =? 16) ;;;
    ret (Hex.bytes_hex ct).

(** ** The generator *)

Definition kat_key : string := "000102030405060708090a0b0c0d0e0f".
Definition kat_pt : string := "00112233445566778899aabbccddeeff".

(** The f-string [f"{key_hex} {pt_hex} {ct_hex}"]. *)
Definition vector_line (key_hex pt_hex ct_hex : string) : string :=
  key_hex +++ " " +++ pt_hex +++ " " +++ ct_hex.

(** [int(sys.argv[1]) if len(sys.argv) > 1 else 20] *)
Definition arg_count (argv : list string) : option Z :=
  match nth_error argv 1 with
  | Some a => py_int pf a
  | None => Some 20%Z
  end.

(** [sys.argv[2] if len(sys.argv) > 2 else "vectors.txt"] *)
Definition arg_path (argv : list string) : string :=
  nth 2 argv "vectors.txt".

(** The body of the [for] loop: one random vector appended to [lines]. *)
Definition random_vector (lines : list string) : M (list string) :=
  key <- token_bytes 16 ;;
  let key_hex := Hex.bytes_hex key in
  pt <- token_bytes 16 ;;
  let pt_hex := Hex.bytes_hex pt in
  ct_hex <- openssl_aes128_ecb_encrypt key_hex pt_hex ;;
  ret (lines ++ [vector_line key_hex pt_hex ct_hex]).

Definition main (argv : list string) : M unit :=
  n <- or_value_error (arg_count argv) ;;
  let out_path := arg_path argv in
  kat_ct <- openssl_aes128_ecb_encrypt kat_key kat_pt ;;
  let lines := [vector_line kat_key kat_pt kat_ct] in
  lines <- for_range (Z.to_nat (n - 1)) random_vector lines ;;
  (open_w out_path ;;;
   try_finally (f_write out_path (Text.join Text.nl lines +++ Text.nl))
               (f_close out_path)) ;;;
  py_print ("Wrote " +++ Text.str_of_nat (List.length lines)
            +++ " vectors to " +++ out_path).

End Script.

(** ** Sample platforms *)

Module Sample.

(** A decimal numeral with an optional minus sign; on such numerals it
    is what Python's [int] returns. *)
Fixpoint digits (s : string) (acc : Z) : option Z :=
  match s with
  | EmptyString => Some acc
  | String c r =>
      let n := nat_of_ascii c in
      if (48 <=? n) && (n <=? 57)
      then digits r (10 * acc + Z.of_nat (n - 48))%Z
      else None
  end.

Definition int (s : string) : option Z :=
  match s with
  | EmptyString => None
  | String "-" (String c r) => option_map Z.opp (digits (String c r) 0%Z)
  | _ => digits s 0%Z
  end.

(** Bytes below 128 as the characters they stand for; on such input it
    is UTF-8 decoding. *)
Definition decode_ascii (bs : list byte) : string :=
  string_of_list_ascii
    (map ascii_of_byte (filter (fun b => Byte.to_nat b <? 128) bs)).

Definition counting_entropy (i : nat) : byte :=
  match Byte.of_nat ((7 * i + 3) mod 256) with
  | Some b => b
  | None => x00
  end.

(** A process that exits with status 0 and echoes its input. *)
Definition echo : platform := {|
  run_process := fun _ _ input =>
    Some {| returncode := 0; stdout := input; stderr := [] |};
  entropy := counting_entropy;
  open_error := fun _ => None;
  write_error := fun _ _ => None;
  close_error := fun _ => None;
  print_error := fun _ => None;
  py_int := int;
  decode_ignore := decode_ascii
|}.

(** A process that exits with status 1 and a diagnostic. *)
Definition failing : platform := {|
  run_process := fun _ _ _ =>
    Some {| returncode := 1; stdout := [];
            stderr := list_byte_of_string "bad key" |};
  entropy := counting_entropy;
  open_error := fun _ => None;
  write_error := fun _ _ => None;
  close_error := fun _ => None;
  print_error := fun _ => None;
  py_int := int;
  decode_ignore := decode_ascii
|}.

(** A process that exits with status 0 and one byte too few. *)
Definition short : platform := {|
  run_process := fun _ _ input =>
    Some {| returncode := 0; stdout := tl input; stderr := [] |};
  entropy := counting_entropy;
  open_error := fun _ => None;
  write_error := fun _ _ => None;
  close_error := fun _ => None;
  print_error := fun _ => None;
  py_int := int;
  decode_ignore := decode_ascii
|}.

(** A process that answers well [k] times and then fails. *)
Definition failing_after (k : nat) : platform := {|
  run_process := fun i _ input =>
    if i <? k
    then Some {| returncode := 0; stdout := input; stderr := [] |}
    else Some {| returncode := 1; stdout := [];
                 stderr := list_byte_of_string "bad key" |};
  entropy := counting_entropy;
  open_error := fun _ => None;
  write_error := fun _ _ => None;
  close_error := fun _ => None;
  print_error := fun _ => None;
  py_int := int;
  decode_ignore := decode_ascii
|}.


(** The echoing platform on a file system where nothing can be opened
    for writing. *)
Definition read_only : platform := {|
  run_process := fun _ _ input =>
    Some {| returncode := 0; stdout := input; stderr := [] |};
  entropy := counting_entropy;
  open_error := fun _ => Some IoOSError;
  write_error := fun _ _ => None;
  close_error := fun _ => None;
  print_error := fun _ => None;
  py_int := int;
  decode_ignore := decode_ascii
|}.

(** The echoing platform on a file system that rejects the path, as a path
    with an embedded null byte is rejected. *)
Definition bad_path : platform := {|
  run_process := fun _ _ input =>
    Some {| returncode := 0; stdout := input; stderr := [] |};
  entropy := counting_entropy;
  open_error := fun _ => Some IoValueError;
  write_error := fun _ _ => None;
  close_error := fun _ => None;
  print_error := fun _ => None;
  py_int := int;
  decode_ignore := decode_ascii
|}.

(** The echoing platform on a device with no space left: the file opens,
    the write raises and nothing is in the file. *)
Definition full_disk : platform := {|
  run_process := fun _ _ input =>
    Some {| returncode := 0; stdout := input; stderr := [] |};
  entropy := counting_entropy;
  open_error := fun _ => None;
  write_error := fun _ _ => Some (EmptyString, IoOSError);
  close_error := fun _ => None;
  print_error := fun _ => None;
  py_int := int;
  decode_ignore := decode_ascii
|}.

End Sample.


(** ** The vector file format *)

(** A line of the vector file: split at single spaces it has exactly three
    fields, each of 32 lowercase hexadecimal characters. *)
Definition is_vector_line (l : string) : bool :=
  match Text.split Text.sp l with
  | [k; p; c] => Hex.is_field k && Hex.is_field p && Hex.is_field c
  | _ => false
  end.

(** A vector file of [n] vectors: split at line feeds it has [n] vector
    lines followed by one empty piece, the text after the last line
    feed. *)
Definition well_formed_output (n : nat) (s : string) : bool :=
  match rev (Text.split Text.lf s) with
  | last :: rlines =>
      String.eqb last EmptyString
      && (List.length rlines =? n)
      && forallb is_vector_line rlines
  | [] => false
  end.

(** The lines of a file that ends with a line feed. *)
Definition file_lines (s : string) : list string :=
  removelast (Text.split Text.lf s).

(** The key, plaintext and ciphertext fields of a line. *)
Definition line_fields (l : string) : list string := Text.split Text.sp l.

(** ** What each generation step produces *)

Section Steps.

Variable pf : platform.

(** The bytes the [i]-th process writes to its standard output when it
    is started by the adapter with [key_hex] and [pt]. *)
Definition reply_stdout (i : nat) (key_hex : string) (pt : list byte)
  : list byte :=
  match run_process pf i (openssl_argv key_hex) pt with
  | Some p => stdout p
  | None => []
  end.

(** The [i]-th process, started by the adapter with [key_hex] and [pt],
    exits with status 0 and exactly 16 bytes of output. *)
Definition good_reply (i : nat) (key_hex : string) (pt : list byte)
  : bool :=
  match run_process pf i (openssl_argv key_hex) pt with
  | Some p => (returncode p =? 0)%Z && (List.length (stdout p) =? 16)
  | None => false
  end.

(** What the adapter does once its arguments are accepted: it starts
    the process, then checks the exit status and the length of the
    output. *)
Definition after_spawn (key_hex : string) (pt : list byte) (t : trace)
  : outcome string * trace :=
  let t' := t ++ [EvSpawn (openssl_argv key_hex) pt] in
  match run_process pf (spawned t) (openssl_argv key_hex) pt with
  | None => (Raise OSError, t')
  | Some cp =>
      if negb (returncode cp =? 0)%Z then
        (Raise (RuntimeError ("OpenSSL failed:" +++ Text.nl
                              +++ decode_ignore pf (stderr cp))), t')
      else if List.length (stdout cp) =? 16 then
        (Ok (Hex.bytes_hex (stdout cp)), t')
      else (Raise AssertionError, t')
  end.

(** The known-answer plaintext as bytes. *)
Definition kat_pt_bytes : list byte :=
  match Hex.bytes_fromhex kat_pt with
  | Some b => b
  | None => []
  end.

(** Key and plaintext of the [j]-th random vector (from 0) of a loop
    that starts when [d] bytes have been drawn. *)
Definition random_key (d j : nat) : list byte :=
  map (entropy pf) (seq (d + 32 * j) 16).

Definition random_pt (d j : nat) : list byte :=
  map (entropy pf) (seq (d + 32 * j + 16) 16).

(** The line of the [j]-th random vector of a loop that starts when [s]
    processes have been started and [d] bytes drawn. *)
Definition random_line (s d j : nat) : string :=
  let key_hex := Hex.bytes_hex (random_key d j) in
  let pt := random_pt d j in
  vector_line key_hex (Hex.bytes_hex pt)
    (Hex.bytes_hex (reply_stdout (s + j) key_hex pt)).

(** The events of the [j]-th iteration of the loop. *)
Definition random_events (d j : nat) : list event :=
  [EvRandom 16; EvRandom 16;
   EvSpawn (openssl_argv (Hex.bytes_hex (random_key d j))) (random_pt d j)].

(** The first line, with the ciphertext the first process returned. *)
Definition kat_line (s : nat) : string :=
  vector_line kat_key kat_pt
    (Hex.bytes_hex (reply_stdout s kat_key kat_pt_bytes)).

Definition kat_event : event :=
  EvSpawn (openssl_argv kat_key) kat_pt_bytes.

(** All the lines of a run of [k] random vectors that starts at the
    trace [t]. *)
Definition generated_lines (t : trace) (k : nat) : list string :=
  kat_line (spawned t)
    :: map (random_line (S (spawned t)) (drawn t)) (seq 0 k).

(** The events of the generation phase of such a run. *)
Definition generation_events (t : trace) (k : nat) : list event :=
  kat_event :: flat_map (random_events (drawn t)) (seq 0 k).

(** The events of the output phase. *)
Definition output_events (path : string) (lines : list string)
  : list event :=
  [EvOpen path;
   EvWrite path (Text.join Text.nl lines +++ Text.nl);
   EvClose path;
   EvPrint ("Wrote " +++ Text.str_of_nat (List.length lines)
            +++ " vectors to " +++ path)].

(** The output phase on its own: the [with] block and the [print] that
    end [main], for the lines [lines]. *)
Definition output_phase (path : string) (lines : list string) : M unit :=
  (open_w pf path ;;;
   try_finally (f_write pf path (Text.join Text.nl lines +++ Text.nl))
               (f_close pf path)) ;;;
  py_print pf ("Wrote " +++ Text.str_of_nat (List.length lines)
               +++ " vectors to " +++ path).

(** The output phase meets no error: the file opens, the write of the
    whole text returns, the close succeeds and the report is printed. *)
Definition output_accepted (path : string) (lines : list string) : bool :=
  match open_error pf path,
        write_error pf path (Text.join Text.nl lines +++ Text.nl),
        close_error pf path,
        print_error pf ("Wrote " +++ Text.str_of_nat (List.length lines)
                        +++ " vectors to " +++ path) with
  | None, None, None, None => true
  | _, _, _, _ => false
  end.

End Steps.

(** The calls of [f.write] recorded in [es]: the path and the text of
    each, in order. *)
Fixpoint written (es : list event) : list (string * string) :=
  match es with
  | [] => []
  | EvWrite p d :: r => (p, d) :: written r
  | _ :: r => written r
  end.

(** An event of the output phase for [path]: an event on the file at
    [path], or a print. *)
Definition is_output_event (path : string) (e : event) : bool :=
  match e with
  | EvOpen p | EvWrite p _ | EvClose p | EvFault p _ => String.eqb p path
  | EvPrint _ => true
  | _ => false
  end.

(** No event of [es] touches the output sink. *)
Definition sink_free (es : list event) : bool :=
  forallb (fun e => negb (is_sink_event e)) es.

(** A block in hexadecimal: it decodes to exactly 16 bytes. *)
Definition decodes_to_block (s : string) : bool :=
  match Hex.bytes_fromhex s with
  | Some b => List.length b =? 16
  | None => false
  end.

(** The canonical AES-128 ciphertext of the known-answer pair. *)
Definition kat_expected : string := "69c4e0d86a7b0430d8cdb78070b4c55a".


(** ** Failures and well-formed events *)

(** The exception the adapter raises when the [i]-th process, started
    with [key_hex] and [pt], does not answer well: it cannot be started,
    it exits with another status than 0, or its output is not 16 bytes
    long. *)
Definition reply_error (pf : platform) (i : nat) (key_hex : string)
           (pt : list byte) : exn :=
  match run_process pf i (openssl_argv key_hex) pt with
  | None => OSError
  | Some cp =>
      if negb (returncode cp =? 0)%Z then
        RuntimeError ("OpenSSL failed:" +++ Text.nl
                      +++ decode_ignore pf (stderr cp))
      else AssertionError
  end.

(** The command line of the adapter, with a key of 32 lowercase
    hexadecimal characters after [-K]. *)
Definition is_openssl_argv (argv : list string) : bool :=
  match argv with
  | [a; b; c; d; k; e; f] =>
      String.eqb a "openssl" && String.eqb b "enc"
      && String.eqb c "-aes-128-ecb" && String.eqb d "-K"
      && Hex.is_field k
      && String.eqb e "-nosalt" && String.eqb f "-nopad"
  | _ => false
  end.

(** An event that handles whole blocks: a draw of 16 random bytes, or a
    process started with the adapter's command line and 16 bytes of
    input.  Events on the sink and prints are not constrained. *)
Definition is_block_event (e : event) : bool :=
  match e with
  | EvRandom n => n =? 16
  | EvSpawn argv input => is_openssl_argv argv && (List.length input =? 16)
  | _ => true
  end.

(** The replies of the first [k] iterations of a loop that starts when
    [s] processes were started and [d] bytes drawn are all good. *)
Definition good_upto (pf : platform) (s d k : nat) : Prop :=
  forall j, j < k ->
    good_reply pf (s + j) (Hex.bytes_hex (random_key pf d j))
      (random_pt pf d j) = true.

(** The known-answer key as bytes. *)
Definition kat_key_bytes : list byte :=
  match Hex.bytes_fromhex kat_key with
  | Some b => b
  | None => []
  end.

(** A line of the file read back: its fields, each decoded from
    hexadecimal. *)
Definition decode_line (l : string) : list (option (list byte)) :=
  map Hex.bytes_fromhex (line_fields l).

(** ** Examples *)

Example hex_example :
  Hex.bytes_hex [x00; x1f; xa0; xff] = "001fa0ff".
Proof. reflexivity. Qed.

Example fromhex_example :
  Hex.bytes_fromhex "00 1F a0ff" = Some [x00; x1f; xa0; xff].
Proof. reflexivity. Qed.

Example fromhex_odd : Hex.bytes_fromhex "0" = None.
Proof. reflexivity. Qed.

Example split_example :
  Text.split Text.sp "ab c  d" = ["ab"; "c"; EmptyString; "d"].
Proof. reflexivity. Qed.

Example run_three :
  file_lines
    (match file_contents "out.txt"
             (snd (main Sample.echo ["gen"; "3"; "out.txt"] [])) with
     | Some s => s
     | None => EmptyString
     end)
  = ["000102030405060708090a0b0c0d0e0f 00112233445566778899aabbccddeeff 00112233445566778899aabbccddeeff";
     "030a11181f262d343b424950575e656c 737a81888f969da4abb2b9c0c7ced5dc 737a81888f969da4abb2b9c0c7ced5dc";
     "e3eaf1f8ff060d141b222930373e454c 535a61686f767d848b9299a0a7aeb5bc 535a61686f767d848b9299a0a7aeb5bc"].
Proof. vm_compute. reflexivity. Qed.

Example run_three_lines :
  main Sample.echo ["gen"; "3"; "out.txt"] []
  = (Ok tt,
     [] ++ generation_events Sample.echo [] 2
        ++ output_events "out.txt" (generated_lines Sample.echo [] 2)).
Proof. vm_compute. reflexivity. Qed.

Example run_failing :
  main Sample.failing ["gen"; "3"; "out.txt"] []
  = (Raise (RuntimeError ("OpenSSL failed:" +++ Text.nl +++ "bad key")),
     [kat_event]).
Proof. vm_compute. reflexivity. Qed.

(** ** Strings *)

Module TextFacts.
Import Text.

Lemma append_assoc (a b c : string) : (a +++ b) +++ c = a +++ (b +++ c).
Proof. induction a as [|x a IH]; simpl; [reflexivity | now rewrite IH]. Qed.

Lemma append_nil_r (a : string) : a +++ EmptyString = a.
Proof. induction a as [|x a IH]; simpl; [reflexivity | now rewrite IH]. Qed.

Lemma length_append (a b : string) :
  String.length (a +++ b) = String.length a + String.length b.
Proof. induction a as [|x a IH]; simpl; [reflexivity | now rewrite IH]. Qed.

Lemma all_append p (a b : string) :
  all p (a +++ b) = all p a && all p b.
Proof.
  induction a as [|x a IH]; simpl; [reflexivity|].
  now rewrite IH, andb_assoc.
Qed.

Lemma all_impl (p q : ascii -> bool) (s : string) :
  (forall a, p a = true -> q a = true) -> all p s = true -> all q s = true.
Proof.
  intros Hpq. induction s as [|x s IH]; simpl; [reflexivity|].
  intros H. apply andb_true_iff in H as [Hx Hs].
  now rewrite (Hpq _ Hx), (IH Hs).
Qed.

Lemma split_not_nil c s : split c s <> [].
Proof.
  destruct s as [|a r]; simpl; [discriminate|].
  destruct (Ascii.eqb a c); [discriminate|].
  destruct (split c r); discriminate.
Qed.

Lemma split_avoids c s : avoids c s = true -> split c s = [s].
Proof.
  unfold avoids. induction s as [|a r IH]; simpl; [reflexivity|].
  intros H. apply andb_true_iff in H as [Ha Hr].
  apply negb_true_iff in Ha. rewrite Ha, (IH Hr). reflexivity.
Qed.

Lemma split_append c l r :
  avoids c l = true -> split c (l +++ String c r) = l :: split c r.
Proof.
  unfold avoids. induction l as [|a l IH]; simpl.
  - intros _. now rewrite Ascii.eqb_refl.
  - intros H. apply andb_true_iff in H as [Ha Hl].
    apply negb_true_iff in Ha. rewrite Ha, (IH Hl). reflexivity.
Qed.

(** Splitting the written text gives back the lines, and one empty
    piece after the final line feed. *)
Lemma split_join_lines (ls : list string) :
  ls <> [] ->
  forallb (avoids lf) ls = true ->
  split lf (join nl ls +++ nl) = ls ++ [EmptyString].
Proof.
  induction ls as [|x ls IH]; [congruence|]. intros _ H.
  simpl in H. apply andb_true_iff in H as [Hx Hls].
  destruct ls as [|y ls].
  - simpl. unfold nl. now rewrite split_append.
  - change (join nl (x :: y :: ls)) with (x +++ nl +++ join nl (y :: ls)).
    rewrite !append_assoc.
    change (split lf (x +++ String lf (join nl (y :: ls) +++ nl))
            = (x :: y :: ls) ++ [EmptyString]).
    rewrite split_append by assumption.
    rewrite IH by (assumption || discriminate). reflexivity.
Qed.

(** The written text starts with its first line and a line feed. *)
Lemma join_head (x : string) (ls : list string) :
  exists rest, join nl (x :: ls) +++ nl = x +++ nl +++ rest.
Proof.
  destruct ls as [|y ls].
  - exists EmptyString. reflexivity.
  - exists (join nl (y :: ls) +++ nl).
    change (join nl (x :: y :: ls)) with (x +++ nl +++ join nl (y :: ls)).
    now rewrite !append_assoc.
Qed.

End TextFacts.

(** ** Hexadecimal *)

Module HexFacts.
Import Text Hex TextFacts.

Lemma digit_lower (n : nat) : is_lower_hex (digit n) = true.
Proof. do 16 (destruct n as [|n]; [reflexivity|]). reflexivity. Qed.

Lemma length_bytes_hex (bs : list byte) :
  String.length (bytes_hex bs) = 2 * List.length bs.
Proof. induction bs as [|b bs IH]; simpl; [reflexivity | rewrite IH; lia]. Qed.

Lemma all_lower_bytes_hex (bs : list byte) :
  all is_lower_hex (bytes_hex bs) = true.
Proof.
  induction bs as [|b bs IH]; simpl; [reflexivity|].
  now rewrite !digit_lower, IH.
Qed.

Lemma is_field_bytes_hex (bs : list byte) :
  List.length bs = 16 -> is_field (bytes_hex bs) = true.
Proof.
  intros H. unfold is_field.
  now rewrite length_bytes_hex, H, all_lower_bytes_hex.
Qed.

(** One byte, written and read back. *)
Lemma fromhex_hex_cons (b : byte) (bs : list byte) :
  bytes_fromhex (bytes_hex (b :: bs))
  = option_map (cons b) (bytes_fromhex (bytes_hex bs)).
Proof.
  destruct b; cbn -[bytes_fromhex bytes_hex];
    change (bytes_hex (?x :: bs)) with
      (String (digit (Byte.to_nat x / 16))
         (String (digit (Byte.to_nat x mod 16)) (bytes_hex bs)));
    cbn; destruct (bytes_fromhex (bytes_hex bs)); reflexivity.
Qed.

(** [bytes.fromhex(b.hex()) == b] *)
Lemma fromhex_hex (bs : list byte) : bytes_fromhex (bytes_hex bs) = Some bs.
Proof.
  induction bs as [|b bs IH]; [reflexivity|].
  now rewrite fromhex_hex_cons, IH.
Qed.

Lemma lower_hex_not_space (a : ascii) :
  is_lower_hex a = true -> negb (Ascii.eqb a sp) = true.
Proof.
  intros H. apply negb_true_iff, Ascii.eqb_neq. intros ->. discriminate H.
Qed.

Lemma lower_hex_not_lf (a : ascii) :
  is_lower_hex a = true -> negb (Ascii.eqb a lf) = true.
Proof.
  intros H. apply negb_true_iff, Ascii.eqb_neq. intros ->. discriminate H.
Qed.

Lemma field_avoids_sp (s : string) : is_field s = true -> avoids sp s = true.
Proof.
  unfold is_field. intros H. apply andb_true_iff in H as [_ H].
  exact (all_impl _ _ _ lower_hex_not_space H).
Qed.

Lemma field_avoids_lf (s : string) : is_field s = true -> avoids lf s = true.
Proof.
  unfold is_field. intros H. apply andb_true_iff in H as [_ H].
  exact (all_impl _ _ _ lower_hex_not_lf H).
Qed.

End HexFacts.

(** ** Traces *)

Lemma spawned_app (a b : trace) : spawned (a ++ b) = spawned a + spawned b.
Proof.
  induction a as [|e a IH]; simpl; [reflexivity|].
  destruct e; simpl; now rewrite IH.
Qed.

Lemma drawn_app (a b : trace) : drawn (a ++ b) = drawn a + drawn b.
Proof.
  induction a as [|e a IH]; simpl; [reflexivity|].
  destruct e; simpl; rewrite IH; lia.
Qed.

Lemma sink_free_app (a b : list event) :
  sink_free (a ++ b) = sink_free a && sink_free b.
Proof. apply forallb_app. Qed.

Lemma file_contents_app (path : string) (a b : trace) :
  file_contents path (a ++ b)
  = fold_left (apply_event path) b (file_contents path a).
Proof. apply fold_left_app. Qed.

(** Events that leave the sink alone leave every file as it was. *)
Lemma file_contents_sink_free (path : string) (es : list event) :
  sink_free es = true ->
  forall c, fold_left (apply_event path) es c = c.
Proof.
  induction es as [|e es IH]; simpl; [reflexivity|].
  intros H c. apply andb_true_iff in H as [He Hes].
  rewrite IH by assumption. destruct e; simpl in *; congruence.
Qed.

(** After the output phase the file holds exactly the joined lines. *)
Lemma file_contents_output (path : string) (t : trace) (ls : list string) :
  file_contents path (t ++ output_events path ls)
  = Some (Text.join Text.nl ls +++ Text.nl).
Proof.
  rewrite file_contents_app. simpl. now rewrite String.eqb_refl.
Qed.

Lemma spawned_draws (t : trace) :
  spawned (t ++ [EvRandom 16] ++ [EvRandom 16]) = spawned t.
Proof. rewrite spawned_app. simpl. lia. Qed.

Lemma ok_pair_inv {A : Type} (a a' : A) (t t' : trace) :
  (Ok a, t) = (Ok a', t') -> a = a' /\ t = t'.
Proof. intros H. inversion H. auto. Qed.

(** ** The adapter, case by case *)

(** A sequence that completes: both halves completed, in order. *)
Lemma bind_ok_inv {A B : Type} (m : M A) (k : A -> M B) (t : trace)
      (b : B) (t' : trace) :
  bind m k t = (Ok b, t') ->
  exists a t1, m t = (Ok a, t1) /\ k a t1 = (Ok b, t').
Proof.
  unfold bind. destruct (m t) as [[a|e] t1]; [|discriminate].
  intros H. exists a, t1. auto.
Qed.

Lemma for_range_S {S : Type} (k : nat) (body : S -> M S) (s : S) :
  for_range (Datatypes.S k) body s
  = bind (body s) (fun s' => for_range k body s').
Proof. reflexivity. Qed.

Section AdapterFacts.

Variable pf : platform.

Lemma adapter_unfold (key_hex pt_hex : string) (t : trace) :
  openssl_aes128_ecb_encrypt pf key_hex pt_hex t
  = match Hex.bytes_fromhex key_hex with
    | None => (Raise ValueError, t)
    | Some k =>
        match Hex.bytes_fromhex pt_hex with
        | None => (Raise ValueError, t)
        | Some p =>
            if (List.length k =? 16) && (List.length p =? 16)
            then after_spawn pf key_hex p t
            else (Raise AssertionError, t)
        end
    end.
Proof.
  unfold openssl_aes128_ecb_encrypt, after_spawn, bind, or_value_error,
    py_assert, subprocess_run, ret, raise.
  destruct (Hex.bytes_fromhex key_hex) as [k|]; [|reflexivity].
  destruct (Hex.bytes_fromhex pt_hex) as [p|]; [|reflexivity].
  destruct ((List.length k =? 16) && (List.length p =? 16)); [|reflexivity].
  destruct (run_process pf (spawned t) (openssl_argv key_hex) p) as [cp|];
    [|reflexivity].
  destruct (negb (returncode cp =? 0)%Z); [reflexivity|].
  destruct (List.length (stdout cp) =? 16); reflexivity.
Qed.

Lemma adapter_accepts (key_hex pt_hex : string) (k p : list byte) t :
  Hex.bytes_fromhex key_hex = Some k ->
  Hex.bytes_fromhex pt_hex = Some p ->
  List.length k = 16 -> List.length p = 16 ->
  openssl_aes128_ecb_encrypt pf key_hex pt_hex t = after_spawn pf key_hex p t.
Proof.
  intros Hk Hp Lk Lp. rewrite adapter_unfold, Hk, Hp, Lk, Lp. reflexivity.
Qed.

Lemma after_spawn_ok_inv key_hex p t ct t' :
  after_spawn pf key_hex p t = (Ok ct, t') ->
  good_reply pf (spawned t) key_hex p = true
  /\ ct = Hex.bytes_hex (reply_stdout pf (spawned t) key_hex p)
  /\ List.length (reply_stdout pf (spawned t) key_hex p) = 16
  /\ t' = t ++ [EvSpawn (openssl_argv key_hex) p].
Proof.
  unfold after_spawn, good_reply, reply_stdout.
  destruct (run_process pf (spawned t) (openssl_argv key_hex) p) as [cp|];
    [|discriminate].
  destruct (returncode cp =? 0)%Z; simpl; [|discriminate].
  destruct (List.length (stdout cp) =? 16) eqn:L; [|discriminate].
  intros H. inversion H; subst. apply Nat.eqb_eq in L. auto.
Qed.

Lemma after_spawn_trace key_hex p t :
  snd (after_spawn pf key_hex p t) = t ++ [EvSpawn (openssl_argv key_hex) p].
Proof.
  unfold after_spawn.
  destruct (run_process pf (spawned t) (openssl_argv key_hex) p) as [cp|];
    [|reflexivity].
  destruct (negb (returncode cp =? 0)%Z); [reflexivity|].
  destruct (List.length (stdout cp) =? 16); reflexivity.
Qed.

(** A successful call: the arguments were two blocks, one process was
    started and it answered well. *)
Lemma adapter_ok_inv key_hex pt_hex t ct t' :
  openssl_aes128_ecb_encrypt pf key_hex pt_hex t = (Ok ct, t') ->
  exists p,
    Hex.bytes_fromhex pt_hex = Some p
    /\ decodes_to_block key_hex = true
    /\ List.length p = 16
    /\ good_reply pf (spawned t) key_hex p = true
    /\ ct = Hex.bytes_hex (reply_stdout pf (spawned t) key_hex p)
    /\ List.length (reply_stdout pf (spawned t) key_hex p) = 16
    /\ t' = t ++ [EvSpawn (openssl_argv key_hex) p].
Proof.
  rewrite adapter_unfold. unfold decodes_to_block.
  destruct (Hex.bytes_fromhex key_hex) as [k|]; [|discriminate].
  destruct (Hex.bytes_fromhex pt_hex) as [p|]; [|discriminate].
  destruct (List.length k =? 16) eqn:Lk; [|discriminate].
  destruct (List.length p =? 16) eqn:Lp; [|discriminate].
  simpl. intros H. apply after_spawn_ok_inv in H as (G & C & L & T).
  exists p. apply Nat.eqb_eq in Lp. auto 10.
Qed.

(** Whatever the outcome, the adapter adds at most the start of one
    process to the trace, and nothing else. *)
Lemma adapter_trace key_hex pt_hex t :
  exists es,
    snd (openssl_aes128_ecb_encrypt pf key_hex pt_hex t) = t ++ es
    /\ sink_free es = true
    /\ spawned es <= 1.
Proof.
  rewrite adapter_unfold.
  destruct (Hex.bytes_fromhex key_hex) as [k|];
    [|exists []; simpl; rewrite app_nil_r; auto].
  destruct (Hex.bytes_fromhex pt_hex) as [p|];
    [|exists []; simpl; rewrite app_nil_r; auto].
  destruct ((List.length k =? 16) && (List.length p =? 16));
    [|exists []; simpl; rewrite app_nil_r; auto].
  exists [EvSpawn (openssl_argv key_hex) p].
  rewrite after_spawn_trace. auto.
Qed.

End AdapterFacts.

(** ** The loop *)

Section GeneratorFacts.

Variable pf : platform.

Lemma random_key_0 d : random_key pf d 0 = map (entropy pf) (seq d 16).
Proof. unfold random_key. now rewrite Nat.mul_0_r, Nat.add_0_r. Qed.

Lemma random_pt_0 d : random_pt pf d 0 = map (entropy pf) (seq (d + 16) 16).
Proof. unfold random_pt. now rewrite Nat.mul_0_r, Nat.add_0_r. Qed.

Lemma length_random_key d j : List.length (random_key pf d j) = 16.
Proof. unfold random_key. now rewrite length_map, length_seq. Qed.

Lemma length_random_pt d j : List.length (random_pt pf d j) = 16.
Proof. unfold random_pt. now rewrite length_map, length_seq. Qed.

(** One iteration, in terms of the adapter's second half. *)
Lemma random_vector_unfold (lines : list string) (t : trace) :
  random_vector pf lines t
  = let key_hex := Hex.bytes_hex (random_key pf (drawn t) 0) in
    let pt := random_pt pf (drawn t) 0 in
    match after_spawn pf key_hex pt (t ++ [EvRandom 16] ++ [EvRandom 16]) with
    | (Ok ct, t') =>
        (Ok (lines ++ [vector_line key_hex (Hex.bytes_hex pt) ct]), t')
    | (Raise e, t') => (Raise e, t')
    end.
Proof.
  unfold random_vector, token_bytes. unfold bind at 1. unfold bind at 1.
  rewrite drawn_app. simpl (drawn [EvRandom 16]).
  rewrite random_key_0, random_pt_0.
  unfold bind.
  rewrite (adapter_accepts pf _ _ _ _ _
             (HexFacts.fromhex_hex _) (HexFacts.fromhex_hex _)
             (eq_trans (f_equal _ (eq_sym (random_key_0 _)))
                       (length_random_key _ 0))
             (eq_trans (f_equal _ (eq_sym (random_pt_0 _)))
                       (length_random_pt _ 0))).
  rewrite <- app_assoc.
  destruct (after_spawn pf _ _ _) as [[ct|e] t']; reflexivity.
Qed.

Lemma random_vector_ok_inv lines t lines' t' :
  random_vector pf lines t = (Ok lines', t') ->
  lines' = lines ++ [random_line pf (spawned t) (drawn t) 0]
  /\ t' = t ++ random_events pf (drawn t) 0
  /\ good_reply pf (spawned t)
       (Hex.bytes_hex (random_key pf (drawn t) 0))
       (random_pt pf (drawn t) 0) = true.
Proof.
  rewrite random_vector_unfold. cbv zeta.
  destruct (after_spawn pf _ _ _) as [[ct|e] t1] eqn:E; [|discriminate].
  intros H. apply ok_pair_inv in H as [<- <-].
  apply after_spawn_ok_inv in E as (G & C & _ & T).
  rewrite spawned_draws in G, C.
  unfold random_line, random_events. rewrite Nat.add_0_r.
  subst ct. rewrite T, <- !app_assoc. auto.
Qed.

Lemma random_vector_trace lines t :
  exists es,
    snd (random_vector pf lines t) = t ++ es /\ sink_free es = true.
Proof.
  rewrite random_vector_unfold. cbv zeta.
  pose proof (after_spawn_trace pf
                (Hex.bytes_hex (random_key pf (drawn t) 0))
                (random_pt pf (drawn t) 0)
                (t ++ [EvRandom 16] ++ [EvRandom 16])) as T.
  destruct (after_spawn pf _ _ _) as [[ct|e] t1]; simpl in *; subst t1;
    rewrite <- !app_assoc; eexists; split; reflexivity.
Qed.

Lemma random_key_shift d j :
  random_key pf (d + 32) j = random_key pf d (S j).
Proof. unfold random_key. do 2 f_equal. lia. Qed.

Lemma random_pt_shift d j :
  random_pt pf (d + 32) j = random_pt pf d (S j).
Proof. unfold random_pt. do 2 f_equal. lia. Qed.

Lemma random_line_shift s d j :
  random_line pf (S s) (d + 32) j = random_line pf s d (S j).
Proof.
  unfold random_line. rewrite random_key_shift, random_pt_shift.
  now rewrite <- plus_n_Sm.
Qed.

Lemma random_events_shift d j :
  random_events pf (d + 32) j = random_events pf d (S j).
Proof.
  unfold random_events. now rewrite random_key_shift, random_pt_shift.
Qed.

Lemma spawned_random_events d j : spawned (random_events pf d j) = 1.
Proof. reflexivity. Qed.

Lemma drawn_random_events d j : drawn (random_events pf d j) = 32.
Proof. reflexivity. Qed.

(** A loop that completes has appended one line per iteration, in the
    order of the iterations, and every process answered well. *)
Lemma for_range_ok_inv (k : nat) :
  forall lines t lines' t',
    for_range k (random_vector pf) lines t = (Ok lines', t') ->
    lines' = lines ++ map (random_line pf (spawned t) (drawn t)) (seq 0 k)
    /\ t' = t ++ flat_map (random_events pf (drawn t)) (seq 0 k)
    /\ forall j, j < k ->
         good_reply pf (spawned t + j)
           (Hex.bytes_hex (random_key pf (drawn t) j))
           (random_pt pf (drawn t) j) = true.
Proof.
  induction k as [|k IH]; intros lines t lines' t' H.
  - inversion H; subst. simpl. rewrite !app_nil_r.
    repeat split; intros; lia.
  - rewrite for_range_S in H.
    apply bind_ok_inv in H as (l & t0 & E & H).
    apply random_vector_ok_inv in E as (L & T & G).
    apply IH in H as (L' & T' & G').
    assert (Hs : spawned t0 = S (spawned t)).
    { rewrite T, spawned_app, spawned_random_events. lia. }
    assert (Hd : drawn t0 = drawn t + 32).
    { rewrite T, drawn_app, drawn_random_events. lia. }
    rewrite Hs in L', G'. rewrite Hd in L', T', G'.
    change (seq 0 (S k)) with (0 :: seq 1 k).
    rewrite <- seq_shift. cbn [map flat_map]. rewrite map_map.
    rewrite (flat_map_concat_map _ (map S _)), map_map,
      <- flat_map_concat_map.
    repeat split.
    + rewrite L', L, <- app_assoc. cbn [app]. do 2 f_equal.
      apply map_ext. intros. apply random_line_shift.
    + rewrite T', T, <- app_assoc. do 2 f_equal.
      rewrite !flat_map_concat_map. f_equal.
      apply map_ext. intros. apply random_events_shift.
    + intros [|j] Hj.
      * now rewrite Nat.add_0_r.
      * specialize (G' j ltac:(lia)).
        rewrite random_key_shift, random_pt_shift in G'.
        now rewrite <- plus_n_Sm.
Qed.

Lemma for_range_trace (k : nat) :
  forall lines t,
  exists es,
    snd (for_range k (random_vector pf) lines t) = t ++ es
    /\ sink_free es = true.
Proof.
  induction k as [|k IH]; intros lines t.
  - exists []. simpl. now rewrite app_nil_r.
  - simpl. unfold bind.
    destruct (random_vector_trace lines t) as (es & T & F).
    destruct (random_vector pf lines t) as [[l|e] t1]; simpl in T; subst t1.
    + destruct (IH l (t ++ es)) as (es' & T' & F').
      exists (es ++ es'). rewrite T', app_assoc, sink_free_app, F, F'. auto.
    + exists es. auto.
Qed.

End GeneratorFacts.

(** ** The output phase *)

Section OutputFacts.

Variable pf : platform.

(** The output phase, case by case: which of the four calls is the first
    to fail, and what has been done to the file by then. *)
Lemma output_phase_unfold (path : string) (lines : list string) (t : trace) :
  output_phase pf path lines t
  = match open_error pf path with
    | Some e => (Raise (exn_of_io e), t)
    | None =>
        match write_error pf path (Text.join Text.nl lines +++ Text.nl),
              close_error pf path with
        | Some (h, e), None =>
            (Raise (exn_of_io e),
             t ++ [EvOpen path;
                   EvWrite path (Text.join Text.nl lines +++ Text.nl);
                   EvFault path h; EvClose path])
        | Some (h, _), Some (h', e') =>
            (Raise (exn_of_io e'),
             t ++ [EvOpen path;
                   EvWrite path (Text.join Text.nl lines +++ Text.nl);
                   EvFault path h; EvClose path; EvFault path h'])
        | None, Some (h', e') =>
            (Raise (exn_of_io e'),
             t ++ [EvOpen path;
                   EvWrite path (Text.join Text.nl lines +++ Text.nl);
                   EvClose path; EvFault path h'])
        | None, None =>
            match print_error pf ("Wrote "
                                  +++ Text.str_of_nat (List.length lines)
                                  +++ " vectors to " +++ path) with
            | Some e =>
                (Raise (exn_of_io e),
                 t ++ [EvOpen path;
                       EvWrite path (Text.join Text.nl lines +++ Text.nl);
                       EvClose path])
            | None => (Ok tt, t ++ output_events path lines)
            end
        end
    end.
Proof.
  unfold output_phase, open_w, f_write, f_close, py_print, try_finally,
    output_events, bind, emit, raise, ret.
  destruct (open_error pf path) as [e|]; [reflexivity|].
  destruct (write_error pf path _) as [[h e]|];
    destruct (close_error pf path) as [[h' e']|];
    rewrite <- ?app_assoc; try reflexivity.
  destruct (print_error pf _) as [e|]; rewrite <- ?app_assoc; reflexivity.
Qed.

Lemma output_phase_accepted path lines t :
  output_accepted pf path lines = true ->
  output_phase pf path lines t = (Ok tt, t ++ output_events path lines).
Proof.
  unfold output_accepted. rewrite output_phase_unfold.
  destruct (open_error pf path) as [e|]; [discriminate|].
  destruct (write_error pf path _) as [[h e]|]; [discriminate|].
  destruct (close_error pf path) as [[h' e']|]; [discriminate|].
  destruct (print_error pf _) as [e|]; [discriminate|]. reflexivity.
Qed.

Lemma output_phase_ok_inv path lines t t' :
  output_phase pf path lines t = (Ok tt, t') ->
  output_accepted pf path lines = true
  /\ t' = t ++ output_events path lines.
Proof.
  unfold output_accepted. rewrite output_phase_unfold.
  destruct (open_error pf path) as [e|]; [discriminate|].
  destruct (write_error pf path _) as [[h e]|];
    destruct (close_error pf path) as [[h' e']|]; try discriminate.
  destruct (print_error pf _) as [e|]; [discriminate|].
  intros H. apply ok_pair_inv in H as [_ <-]. auto.
Qed.

Lemma output_phase_open_fails path lines t e :
  open_error pf path = Some e ->
  output_phase pf path lines t = (Raise (exn_of_io e), t).
Proof. intros H. now rewrite output_phase_unfold, H. Qed.

(** Whatever the outcome, the output phase adds only events on its own
    file and the print; and either it adds nothing, or it has called
    [f.write] exactly once, with the whole text. *)
Lemma output_phase_events path lines t :
  exists tail,
    snd (output_phase pf path lines t) = t ++ tail
    /\ forallb (is_output_event path) tail = true
    /\ (tail = []
        \/ written tail
           = [(path, Text.join Text.nl lines +++ Text.nl)]).
Proof.
  rewrite output_phase_unfold.
  destruct (open_error pf path) as [e|].
  { exists []. cbn. rewrite app_nil_r. auto. }
  destruct (write_error pf path _) as [[h e]|];
    destruct (close_error pf path) as [[h' e']|];
    try destruct (print_error pf _) as [e''|];
    cbn [snd]; eexists; (split; [reflexivity|]);
    cbn [forallb is_output_event written output_events];
    rewrite ?String.eqb_refl; cbn [andb];
    (split; [reflexivity|]); right; reflexivity.
Qed.

Lemma output_events_only (path : string) (es : list event) :
  forallb (is_output_event path) es = true ->
  spawned es = 0
  /\ drawn es = 0
  /\ forallb is_block_event es = true
  /\ forall p c, p <> path -> fold_left (apply_event p) es c = c.
Proof.
  induction es as [|e es IH]; [cbn; auto|].
  cbn [forallb]. intros H. apply andb_true_iff in H as [He Hes].
  destruct (IH Hes) as (S0 & D0 & B & F).
  destruct e as [n|argv input|p0|p0 d|p0|p0 h|line];
    cbn [is_output_event] in He; try discriminate He;
    cbn [spawned drawn forallb is_block_event andb];
    (split; [exact S0|]); (split; [exact D0|]); (split; [exact B|]);
    intros q c Hq; cbn [fold_left apply_event];
    try (apply String.eqb_eq in He; subst p0;
         assert (E : String.eqb path q = false)
           by (apply String.eqb_neq; congruence);
         rewrite E);
    now apply F.
Qed.

(** The output phase raises only what [open], [f.write], the close and
    [print] raise. *)
Lemma output_phase_raise_io path lines t e t' :
  output_phase pf path lines t = (Raise e, t') ->
  exists io, e = exn_of_io io.
Proof.
  rewrite output_phase_unfold.
  destruct (open_error pf path) as [e0|].
  { intros H. inversion H. now exists e0. }
  destruct (write_error pf path _) as [[h e1]|];
    destruct (close_error pf path) as [[h' e2]|];
    try destruct (print_error pf _) as [e3|];
    intros H; inversion H; eauto.
Qed.

End OutputFacts.

(** ** The generator, phase by phase *)

Section MainFacts.

Variable pf : platform.

(** The known-answer arguments are always accepted by the adapter. *)
Lemma adapter_kat (t : trace) :
  openssl_aes128_ecb_encrypt pf kat_key kat_pt t
  = after_spawn pf kat_key kat_pt_bytes t.
Proof. eapply adapter_accepts; reflexivity. Qed.

Lemma main_unfold (argv : list string) (t : trace) :
  main pf argv t
  = match arg_count pf argv with
    | None => (Raise ValueError, t)
    | Some n =>
        match after_spawn pf kat_key kat_pt_bytes t with
        | (Raise e, t1) => (Raise e, t1)
        | (Ok ct, t1) =>
            match for_range (Z.to_nat (n - 1)) (random_vector pf)
                    [vector_line kat_key kat_pt ct] t1 with
            | (Raise e, t2) => (Raise e, t2)
            | (Ok lines, t2) => output_phase pf (arg_path argv) lines t2
            end
        end
    end.
Proof.
  unfold main. unfold bind at 1.
  destruct (arg_count pf argv) as [n|]; [|reflexivity].
  cbn [or_value_error ret]. unfold bind at 1. rewrite adapter_kat.
  destruct (after_spawn pf kat_key kat_pt_bytes t) as [[ct|e] t1];
    [|reflexivity].
  unfold bind at 1.
  destruct (for_range _ _ _ t1) as [[lines|e] t2]; reflexivity.
Qed.

(** A run that completes: the known-answer vector, then the random
    vectors in the order of the loop, then the output phase; every
    process answered with status 0 and 16 bytes. *)
Lemma main_ok_inv (argv : list string) (t t' : trace) :
  main pf argv t = (Ok tt, t') ->
  exists n,
    arg_count pf argv = Some n
    /\ output_accepted pf (arg_path argv)
         (generated_lines pf t (Z.to_nat (n - 1))) = true
    /\ good_reply pf (spawned t) kat_key kat_pt_bytes = true
    /\ (forall j, j < Z.to_nat (n - 1) ->
          good_reply pf (S (spawned t) + j)
            (Hex.bytes_hex (random_key pf (drawn t) j))
            (random_pt pf (drawn t) j) = true)
    /\ t' = t ++ generation_events pf t (Z.to_nat (n - 1))
              ++ output_events (arg_path argv)
                   (generated_lines pf t (Z.to_nat (n - 1))).
Proof.
  rewrite main_unfold.
  destruct (arg_count pf argv) as [n|]; [|discriminate].
  destruct (after_spawn pf kat_key kat_pt_bytes t) as [[ct|e] t1] eqn:E;
    [|discriminate].
  apply after_spawn_ok_inv in E as (G & C & _ & T).
  destruct (for_range _ _ _ t1) as [[lines|e] t2] eqn:L; [|discriminate].
  apply for_range_ok_inv in L as (Ll & Lt & Lg).
  assert (Hs : spawned t1 = S (spawned t)).
  { rewrite T, spawned_app. simpl. lia. }
  assert (Hd : drawn t1 = drawn t).
  { rewrite T, drawn_app. simpl. lia. }
  rewrite Hs in Ll, Lg. rewrite Hd in Ll, Lt, Lg.
  intros H. apply output_phase_ok_inv in H as [A ->].
  assert (El : lines = generated_lines pf t (Z.to_nat (n - 1))).
  { unfold generated_lines, kat_line. now rewrite Ll, C. }
  clear Ll. subst lines.
  exists n. repeat split; auto.
  unfold generation_events, kat_event.
  rewrite Lt, T, <- !app_assoc. reflexivity.
Qed.

Lemma spawned_flat_random d k :
  spawned (flat_map (random_events pf d) (seq 0 k)) = k.
Proof.
  generalize 0. induction k as [|k IH]; intros s; [reflexivity|].
  cbn [seq flat_map]. rewrite spawned_app, IH. reflexivity.
Qed.

Lemma sink_free_flat_random d k :
  sink_free (flat_map (random_events pf d) (seq 0 k)) = true.
Proof.
  generalize 0. induction k as [|k IH]; intros s; [reflexivity|].
  cbn [seq flat_map]. rewrite sink_free_app, IH. reflexivity.
Qed.

Lemma spawned_generation t k : spawned (generation_events pf t k) = S k.
Proof.
  unfold generation_events, kat_event. cbn [spawned].
  now rewrite spawned_flat_random.
Qed.

Lemma sink_free_generation t k :
  sink_free (generation_events pf t k) = true.
Proof.
  unfold generation_events, kat_event.
  change (sink_free (?e :: ?r)) with (negb (is_sink_event e) && sink_free r).
  now rewrite sink_free_flat_random.
Qed.

Lemma length_generated_lines t k :
  List.length (generated_lines pf t k) = S k.
Proof.
  unfold generated_lines. cbn [List.length].
  now rewrite length_map, length_seq.
Qed.

End MainFacts.

(** ** The format of the lines *)

Section FormatFacts.

Import Text Hex TextFacts HexFacts.

Lemma vector_line_fields (a b c : string) :
  is_field a = true -> is_field b = true -> is_field c = true ->
  line_fields (vector_line a b c) = [a; b; c].
Proof.
  intros Ha Hb Hc. unfold line_fields, vector_line.
  change (split sp (a +++ String sp (b +++ String sp c)) = [a; b; c]).
  rewrite split_append by now apply field_avoids_sp.
  rewrite split_append by now apply field_avoids_sp.
  now rewrite split_avoids by now apply field_avoids_sp.
Qed.

Lemma vector_line_ok (a b c : string) :
  is_field a = true -> is_field b = true -> is_field c = true ->
  is_vector_line (vector_line a b c) = true.
Proof.
  intros Ha Hb Hc. unfold is_vector_line.
  fold (line_fields (vector_line a b c)).
  rewrite vector_line_fields by assumption. now rewrite Ha, Hb, Hc.
Qed.

Lemma vector_line_avoids_lf (a b c : string) :
  is_field a = true -> is_field b = true -> is_field c = true ->
  avoids lf (vector_line a b c) = true.
Proof.
  intros Ha Hb Hc. unfold vector_line, avoids.
  rewrite !all_append.
  fold (avoids lf a) (avoids lf b) (avoids lf c).
  now rewrite !field_avoids_lf by assumption.
Qed.

Lemma good_reply_length pf i key_hex pt :
  good_reply pf i key_hex pt = true ->
  List.length (reply_stdout pf i key_hex pt) = 16.
Proof.
  unfold good_reply, reply_stdout.
  destruct (run_process pf i (openssl_argv key_hex) pt) as [cp|];
    [|discriminate].
  intros H. apply andb_true_iff in H as [_ H]. now apply Nat.eqb_eq.
Qed.

Lemma kat_key_field : is_field kat_key = true.
Proof. reflexivity. Qed.

Lemma kat_pt_field : is_field kat_pt = true.
Proof. reflexivity. Qed.

(** The three fields of every generated line are blocks in lowercase
    hexadecimal, provided every process answered well. *)
Lemma generated_lines_fields pf t k :
  good_reply pf (spawned t) kat_key kat_pt_bytes = true ->
  (forall j, j < k ->
     good_reply pf (S (spawned t) + j)
       (bytes_hex (random_key pf (drawn t) j))
       (random_pt pf (drawn t) j) = true) ->
  forall l, In l (generated_lines pf t k) ->
    is_vector_line l = true /\ avoids lf l = true.
Proof.
  intros G0 G l [<-|Hin].
  - unfold kat_line.
    pose proof (is_field_bytes_hex _ (good_reply_length _ _ _ _ G0)) as F.
    split; [apply vector_line_ok | apply vector_line_avoids_lf];
      auto using kat_key_field, kat_pt_field.
  - apply in_map_iff in Hin as (j & <- & Hj). apply in_seq in Hj.
    specialize (G j ltac:(lia)). unfold random_line.
    pose proof (is_field_bytes_hex _ (good_reply_length _ _ _ _ G)) as F.
    pose proof (is_field_bytes_hex _ (length_random_key pf (drawn t) j)).
    pose proof (is_field_bytes_hex _ (length_random_pt pf (drawn t) j)).
    split; [apply vector_line_ok | apply vector_line_avoids_lf]; auto.
Qed.

Lemma forallb_rev {A : Type} (p : A -> bool) (l : list A) :
  forallb p l = true -> forallb p (rev l) = true.
Proof.
  rewrite !forallb_forall. intros H x Hx. apply H. now apply in_rev.
Qed.

(** A text written from well-formed lines is a well-formed file. *)
Lemma written_text_well_formed (ls : list string) :
  ls <> [] ->
  (forall l, In l ls -> is_vector_line l = true /\ avoids lf l = true) ->
  split lf (join nl ls +++ nl) = ls ++ [EmptyString]
  /\ well_formed_output (List.length ls) (join nl ls +++ nl) = true.
Proof.
  intros Hne H.
  assert (S : split lf (join nl ls +++ nl) = ls ++ [EmptyString]).
  { apply split_join_lines; [assumption|].
    apply forallb_forall. intros l Hl. now apply H. }
  split; [assumption|].
  unfold well_formed_output. rewrite S, rev_app_distr. cbn [rev app].
  rewrite length_rev, Nat.eqb_refl. cbn [String.eqb andb].
  apply forallb_rev, forallb_forall. intros l Hl. now apply H.
Qed.

End FormatFacts.

(** ** Runs on platforms that cannot be told apart *)

Section SameBehaviour.

Variables pf1 pf2 : platform.

Hypothesis same_process :
  forall i argv input,
    run_process pf1 i argv input = run_process pf2 i argv input.
Hypothesis same_decode :
  forall b, decode_ignore pf1 b = decode_ignore pf2 b.




End SameBehaviour.

(** * The oracle adapter *)

Lemma decodes_to_block_inv (s : string) :
  decodes_to_block s = true ->
  exists b, Hex.bytes_fromhex s = Some b /\ List.length b = 16.
Proof.
  unfold decodes_to_block.
  destruct (Hex.bytes_fromhex s) as [b|]; [|discriminate].
  intros H. exists b. split; [reflexivity | now apply Nat.eqb_eq].
Qed.

(** C5.  When the key or the plaintext handed to the adapter does not
    decode to exactly 16 bytes (it is not hexadecimal at all, or it
    decodes to another length), the adapter raises, [ValueError] or
    [AssertionError], and the trace is left as it was: no process has been
    started. *)
Theorem adapter_rejects_malformed_blocks
        (pf : platform) (key_hex pt_hex : string) (t : trace) :
  decodes_to_block key_hex && decodes_to_block pt_hex = false ->
  exists e,
    openssl_aes128_ecb_encrypt pf key_hex pt_hex t = (Raise e, t)
    /\ (e = ValueError \/ e = AssertionError).
Proof.
  unfold decodes_to_block. rewrite adapter_unfold.
  destruct (Hex.bytes_fromhex key_hex) as [k|];
    [|intros _; exists ValueError; auto].
  destruct (Hex.bytes_fromhex pt_hex) as [p|];
    [|intros _; exists ValueError; auto].
  intros H. rewrite H. exists AssertionError. auto.
Qed.

Lemma adapter_rejects_malformed_blocks_witness :
  exists e,
    openssl_aes128_ecb_encrypt Sample.echo "0001" kat_pt [] = (Raise e, [])
    /\ (e = ValueError \/ e = AssertionError).
Proof.
  apply (adapter_rejects_malformed_blocks Sample.echo "0001" kat_pt []).
  reflexivity.
Defined.

(** C6.  When the process started by the adapter exits with status 0 but
    its output is not exactly 16 bytes long, the adapter raises
    [AssertionError]; and whenever the adapter returns, what it returns is
    the hexadecimal form of the 16 bytes the process wrote: 32 lowercase
    hexadecimal characters. *)
Theorem adapter_output_is_one_block
        (pf : platform) (key_hex pt_hex : string) (t t' : trace)
        (r : outcome string) :
  openssl_aes128_ecb_encrypt pf key_hex pt_hex t = (r, t') ->
  (forall p cp,
      decodes_to_block key_hex = true ->
      Hex.bytes_fromhex pt_hex = Some p ->
      List.length p = 16 ->
      run_process pf (spawned t) (openssl_argv key_hex) p = Some cp ->
      returncode cp = 0%Z ->
      List.length (stdout cp) <> 16 ->
      r = Raise AssertionError)
  /\ (forall ct,
         r = Ok ct ->
         exists p,
           Hex.bytes_fromhex pt_hex = Some p
           /\ ct = Hex.bytes_hex (reply_stdout pf (spawned t) key_hex p)
           /\ List.length (reply_stdout pf (spawned t) key_hex p) = 16
           /\ String.length ct = 32
           /\ Hex.is_field ct = true).
Proof.
  intros H. split.
  - intros p cp Hk Hp Lp Hr Hc Hl.
    apply decodes_to_block_inv in Hk as (k & Hk & Lk).
    rewrite (adapter_accepts pf _ _ _ _ t Hk Hp Lk Lp) in H.
    unfold after_spawn in H. rewrite Hr, Hc in H. cbn [Z.eqb negb] in H.
    apply Nat.eqb_neq in Hl. rewrite Hl in H. congruence.
  - intros ct ->. apply adapter_ok_inv in H as (p & Hp & _ & _ & _ & C & L & _).
    exists p. repeat split; try assumption.
    + subst ct. rewrite HexFacts.length_bytes_hex, L. reflexivity.
    + subst ct. now apply HexFacts.is_field_bytes_hex.
Qed.

Lemma adapter_output_is_one_block_witness :
  fst (openssl_aes128_ecb_encrypt Sample.short kat_key kat_pt [])
  = Raise AssertionError
  /\ exists ct,
       fst (openssl_aes128_ecb_encrypt Sample.echo kat_key kat_pt []) = Ok ct
       /\ String.length ct = 32
       /\ Hex.is_field ct = true.
Proof.
  split.
  - refine (proj1 (adapter_output_is_one_block Sample.short kat_key kat_pt
                     [] [kat_event] _ _)
              kat_pt_bytes
              {| returncode := 0; stdout := tl kat_pt_bytes; stderr := [] |}
              _ _ _ _ _ _).
    + vm_compute. reflexivity.
    + reflexivity.
    + reflexivity.
    + reflexivity.
    + reflexivity.
    + reflexivity.
    + vm_compute. discriminate.
  - exists "00112233445566778899aabbccddeeff".
    split; [vm_compute; reflexivity|].
    destruct (proj2 (adapter_output_is_one_block Sample.echo kat_key kat_pt
                       [] [kat_event]
                       (Ok "00112233445566778899aabbccddeeff")
                       ltac:(vm_compute; reflexivity))
                _ eq_refl) as (p & _ & _ & _ & L & F).
    split; assumption.
Defined.

(** C7.  When the process started by the adapter exits with a status
    other than 0, the adapter raises a [RuntimeError] whose message is
    ["OpenSSL failed:"], a line feed, and the decoded standard error of the
    process; no ciphertext is returned. *)
Theorem adapter_reports_process_failure
        (pf : platform) (key_hex pt_hex : string) (p : list byte)
        (cp : completed_process) (t : trace) :
  decodes_to_block key_hex = true ->
  Hex.bytes_fromhex pt_hex = Some p ->
  List.length p = 16 ->
  run_process pf (spawned t) (openssl_argv key_hex) p = Some cp ->
  returncode cp <> 0%Z ->
  openssl_aes128_ecb_encrypt pf key_hex pt_hex t
  = (Raise (RuntimeError ("OpenSSL failed:" +++ Text.nl
                          +++ decode_ignore pf (stderr cp))),
     t ++ [EvSpawn (openssl_argv key_hex) p]).
Proof.
  intros Hk Hp Lp Hr Hc.
  apply decodes_to_block_inv in Hk as (k & Hk & Lk).
  rewrite (adapter_accepts pf _ _ _ _ t Hk Hp Lk Lp).
  unfold after_spawn. rewrite Hr.
  apply Z.eqb_neq in Hc. rewrite Hc. reflexivity.
Qed.

Lemma adapter_reports_process_failure_witness :
  openssl_aes128_ecb_encrypt Sample.failing kat_key kat_pt []
  = (Raise (RuntimeError ("OpenSSL failed:" +++ Text.nl +++ "bad key")),
     [kat_event]).
Proof.
  apply (adapter_reports_process_failure Sample.failing kat_key kat_pt
           kat_pt_bytes
           {| returncode := 1; stdout := [];
              stderr := list_byte_of_string "bad key" |} []).
  - reflexivity.
  - reflexivity.
  - reflexivity.
  - reflexivity.
  - discriminate.
Defined.

(** * The generator *)

Section SingleVector.

Variable pf : platform.

Lemma after_spawn_good key_hex p t :
  good_reply pf (spawned t) key_hex p = true ->
  after_spawn pf key_hex p t
  = (Ok (Hex.bytes_hex (reply_stdout pf (spawned t) key_hex p)),
     t ++ [EvSpawn (openssl_argv key_hex) p]).
Proof.
  unfold good_reply, reply_stdout, after_spawn.
  destruct (run_process pf (spawned t) (openssl_argv key_hex) p) as [cp|];
    [|discriminate].
  intros H. apply andb_true_iff in H as [Hc Hl]. now rewrite Hc, Hl.
Qed.

(** A run for a count of at most 1 is the known-answer call followed by
    the output phase. *)
Lemma main_single (argv : list string) (n : Z) (t : trace) :
  arg_count pf argv = Some n ->
  (n <= 1)%Z ->
  main pf argv t
  = match after_spawn pf kat_key kat_pt_bytes t with
    | (Raise e, t1) => (Raise e, t1)
    | (Ok ct, t1) =>
        output_phase pf (arg_path argv) [vector_line kat_key kat_pt ct] t1
    end.
Proof.
  intros Hn Hle. rewrite main_unfold, Hn.
  replace (Z.to_nat (n - 1)) with 0 by lia. reflexivity.
Qed.

End SingleVector.

(** ** Runs, forwards *)

Section Forward.

Variable pf : platform.

Lemma after_spawn_bad key_hex p t :
  good_reply pf (spawned t) key_hex p = false ->
  after_spawn pf key_hex p t
  = (Raise (reply_error pf (spawned t) key_hex p),
     t ++ [EvSpawn (openssl_argv key_hex) p]).
Proof.
  unfold good_reply, reply_error, after_spawn.
  destruct (run_process pf (spawned t) (openssl_argv key_hex) p) as [cp|];
    [|reflexivity].
  destruct (returncode cp =? 0)%Z; cbn [negb andb]; [|reflexivity].
  intros H. now rewrite H.
Qed.


(** An [AssertionError] after the process was started: it exited with
    status 0 and its output was not 16 bytes long. *)
Lemma reply_error_assertion i key_hex p :
  good_reply pf i key_hex p = false ->
  reply_error pf i key_hex p = AssertionError ->
  exists cp,
    run_process pf i (openssl_argv key_hex) p = Some cp
    /\ returncode cp = 0%Z
    /\ List.length (stdout cp) <> 16.
Proof.
  unfold good_reply, reply_error.
  destruct (run_process pf i (openssl_argv key_hex) p) as [cp|];
    [|discriminate].
  destruct (returncode cp =? 0)%Z eqn:C; cbn [negb andb]; [|discriminate].
  intros L _. exists cp. apply Z.eqb_eq in C. apply Nat.eqb_neq in L. auto.
Qed.

Lemma random_vector_good lines t :
  good_reply pf (spawned t)
    (Hex.bytes_hex (random_key pf (drawn t) 0))
    (random_pt pf (drawn t) 0) = true ->
  random_vector pf lines t
  = (Ok (lines ++ [random_line pf (spawned t) (drawn t) 0]),
     t ++ random_events pf (drawn t) 0).
Proof.
  intros G. rewrite random_vector_unfold. cbv zeta.
  rewrite after_spawn_good by now rewrite spawned_draws.
  rewrite spawned_draws. unfold random_line, random_events.
  rewrite Nat.add_0_r, <- !app_assoc. reflexivity.
Qed.

Lemma random_vector_bad lines t :
  good_reply pf (spawned t)
    (Hex.bytes_hex (random_key pf (drawn t) 0))
    (random_pt pf (drawn t) 0) = false ->
  random_vector pf lines t
  = (Raise (reply_error pf (spawned t)
              (Hex.bytes_hex (random_key pf (drawn t) 0))
              (random_pt pf (drawn t) 0)),
     t ++ random_events pf (drawn t) 0).
Proof.
  intros G. rewrite random_vector_unfold. cbv zeta.
  rewrite after_spawn_bad by now rewrite spawned_draws.
  rewrite spawned_draws. unfold random_events.
  rewrite <- !app_assoc. reflexivity.
Qed.

Lemma spawned_after_iteration t :
  spawned (t ++ random_events pf (drawn t) 0) = S (spawned t).
Proof. rewrite spawned_app, spawned_random_events. lia. Qed.

Lemma drawn_after_iteration t :
  drawn (t ++ random_events pf (drawn t) 0) = drawn t + 32.
Proof. rewrite drawn_app, drawn_random_events. lia. Qed.

Lemma flat_random_S d k :
  flat_map (random_events pf d) (seq 0 (S k))
  = random_events pf d 0 ++ flat_map (random_events pf (d + 32)) (seq 0 k).
Proof.
  change (seq 0 (S k)) with (0 :: seq 1 k).
  rewrite <- seq_shift. cbn [flat_map]. f_equal.
  rewrite !flat_map_concat_map, map_map. f_equal.
  apply map_ext. intros. symmetry. apply random_events_shift.
Qed.

Lemma map_random_line_S s d k :
  map (random_line pf s d) (seq 0 (S k))
  = random_line pf s d 0 :: map (random_line pf (S s) (d + 32)) (seq 0 k).
Proof.
  change (seq 0 (S k)) with (0 :: seq 1 k).
  rewrite <- seq_shift. cbn [map]. f_equal. rewrite map_map.
  apply map_ext. intros. symmetry. apply random_line_shift.
Qed.

Lemma good_upto_shift s d k :
  good_upto pf s d (S k) -> good_upto pf (S s) (d + 32) k.
Proof.
  intros G j Hj. specialize (G (S j) ltac:(lia)).
  rewrite random_key_shift, random_pt_shift.
  now rewrite <- plus_n_Sm in G.
Qed.

Lemma good_upto_0 s d k :
  good_upto pf s d (S k) ->
  good_reply pf s (Hex.bytes_hex (random_key pf d 0)) (random_pt pf d 0)
  = true.
Proof. intros G. specialize (G 0 ltac:(lia)). now rewrite Nat.add_0_r in G. Qed.

(** A loop whose processes all answer well completes. *)
Lemma for_range_good (k : nat) :
  forall lines t,
    good_upto pf (spawned t) (drawn t) k ->
    for_range k (random_vector pf) lines t
    = (Ok (lines ++ map (random_line pf (spawned t) (drawn t)) (seq 0 k)),
       t ++ flat_map (random_events pf (drawn t)) (seq 0 k)).
Proof.
  induction k as [|k IH]; intros lines t G.
  - cbn. now rewrite !app_nil_r.
  - rewrite for_range_S. unfold bind.
    rewrite (random_vector_good lines t (good_upto_0 _ _ _ G)).
    rewrite IH.
    + rewrite spawned_after_iteration, drawn_after_iteration.
      rewrite map_random_line_S, flat_random_S, <- !app_assoc. reflexivity.
    + rewrite spawned_after_iteration, drawn_after_iteration.
      now apply good_upto_shift.
Qed.

(** A loop stops at the first process that does not answer well. *)
Lemma for_range_first_bad (j : nat) :
  forall k lines t,
    j < k ->
    good_upto pf (spawned t) (drawn t) j ->
    good_reply pf (spawned t + j)
      (Hex.bytes_hex (random_key pf (drawn t) j))
      (random_pt pf (drawn t) j) = false ->
    for_range k (random_vector pf) lines t
    = (Raise (reply_error pf (spawned t + j)
                (Hex.bytes_hex (random_key pf (drawn t) j))
                (random_pt pf (drawn t) j)),
       t ++ flat_map (random_events pf (drawn t)) (seq 0 (S j))).
Proof.
  induction j as [|j IH]; intros k lines t Hk G B.
  - destruct k as [|k]; [lia|].
    rewrite Nat.add_0_r in *.
    rewrite for_range_S. unfold bind. rewrite (random_vector_bad lines t B).
    cbn [seq flat_map]. now rewrite app_nil_r.
  - destruct k as [|k]; [lia|].
    rewrite for_range_S. unfold bind.
    rewrite (random_vector_good lines t (good_upto_0 _ _ _ G)).
    rewrite (IH k); try lia.
    + rewrite spawned_after_iteration, drawn_after_iteration.
      rewrite random_key_shift, random_pt_shift.
      rewrite <- (plus_n_Sm (spawned t) j).
      rewrite (flat_random_S _ (S j)), <- !app_assoc. reflexivity.
    + rewrite spawned_after_iteration, drawn_after_iteration.
      now apply good_upto_shift.
    + rewrite spawned_after_iteration, drawn_after_iteration.
      rewrite random_key_shift, random_pt_shift.
      now rewrite <- (plus_n_Sm (spawned t) j) in B.
Qed.

(** Either all the first [k] replies are good, or there is a first one
    that is not. *)
Lemma first_bad_or_all_good s d (k : nat) :
  good_upto pf s d k
  \/ exists j, j < k /\ good_upto pf s d j
       /\ good_reply pf (s + j) (Hex.bytes_hex (random_key pf d j))
            (random_pt pf d j) = false.
Proof.
  induction k as [|k IH].
  - left. intros j Hj. lia.
  - destruct IH as [G|(j & Hj & G & B)].
    + destruct (good_reply pf (s + k) (Hex.bytes_hex (random_key pf d k))
                  (random_pt pf d k)) eqn:E.
      * left. intros j Hj.
        destruct (Nat.eq_dec j k) as [->|]; [assumption | apply G; lia].
      * right. exists k. auto.
    + right. exists j. split; [lia | auto].
Qed.

End Forward.

(** ** The stages of a run *)

Section Stages.

Variable pf : platform.

Lemma spawned_after_kat t : spawned (t ++ [kat_event]) = S (spawned t).
Proof. rewrite spawned_app. cbn. lia. Qed.

Lemma drawn_after_kat t : drawn (t ++ [kat_event]) = drawn t.
Proof. rewrite drawn_app. cbn. lia. Qed.

Lemma main_no_count argv t :
  arg_count pf argv = None -> main pf argv t = (Raise ValueError, t).
Proof. intros H. now rewrite main_unfold, H. Qed.

Lemma main_kat_bad argv n t :
  arg_count pf argv = Some n ->
  good_reply pf (spawned t) kat_key kat_pt_bytes = false ->
  main pf argv t
  = (Raise (reply_error pf (spawned t) kat_key kat_pt_bytes),
     t ++ [kat_event]).
Proof.
  intros Hn B. rewrite main_unfold, Hn.
  now rewrite (after_spawn_bad pf _ _ _ B).
Qed.

Lemma main_first_bad argv n t j :
  arg_count pf argv = Some n ->
  good_reply pf (spawned t) kat_key kat_pt_bytes = true ->
  j < Z.to_nat (n - 1) ->
  good_upto pf (S (spawned t)) (drawn t) j ->
  good_reply pf (S (spawned t) + j)
    (Hex.bytes_hex (random_key pf (drawn t) j))
    (random_pt pf (drawn t) j) = false ->
  main pf argv t
  = (Raise (reply_error pf (S (spawned t) + j)
              (Hex.bytes_hex (random_key pf (drawn t) j))
              (random_pt pf (drawn t) j)),
     t ++ generation_events pf t (S j)).
Proof.
  intros Hn G0 Hj G B. rewrite main_unfold, Hn.
  rewrite (after_spawn_good pf _ _ _ G0). fold kat_event.
  rewrite (for_range_first_bad pf j);
    rewrite ?spawned_after_kat, ?drawn_after_kat; try assumption.
  unfold generation_events. now rewrite <- app_assoc.
Qed.

Lemma main_all_good argv n t :
  arg_count pf argv = Some n ->
  good_reply pf (spawned t) kat_key kat_pt_bytes = true ->
  good_upto pf (S (spawned t)) (drawn t) (Z.to_nat (n - 1)) ->
  main pf argv t
  = output_phase pf (arg_path argv)
      (generated_lines pf t (Z.to_nat (n - 1)))
      (t ++ generation_events pf t (Z.to_nat (n - 1))).
Proof.
  intros Hn G0 G. rewrite main_unfold, Hn.
  rewrite (after_spawn_good pf _ _ _ G0). fold kat_event.
  rewrite (for_range_good pf);
    rewrite ?spawned_after_kat, ?drawn_after_kat; try assumption.
  unfold generation_events, generated_lines, kat_line.
  now rewrite <- !app_assoc.
Qed.

(** Every run with a readable count is in one of three cases. *)
Lemma main_cases argv n t :
  arg_count pf argv = Some n ->
  (good_reply pf (spawned t) kat_key kat_pt_bytes = false
   /\ main pf argv t
      = (Raise (reply_error pf (spawned t) kat_key kat_pt_bytes),
         t ++ [kat_event]))
  \/ (exists j,
         j < Z.to_nat (n - 1)
         /\ good_reply pf (S (spawned t) + j)
              (Hex.bytes_hex (random_key pf (drawn t) j))
              (random_pt pf (drawn t) j) = false
         /\ main pf argv t
            = (Raise (reply_error pf (S (spawned t) + j)
                        (Hex.bytes_hex (random_key pf (drawn t) j))
                        (random_pt pf (drawn t) j)),
               t ++ generation_events pf t (S j)))
  \/ (good_reply pf (spawned t) kat_key kat_pt_bytes = true
      /\ good_upto pf (S (spawned t)) (drawn t) (Z.to_nat (n - 1))
      /\ main pf argv t
         = output_phase pf (arg_path argv)
             (generated_lines pf t (Z.to_nat (n - 1)))
             (t ++ generation_events pf t (Z.to_nat (n - 1)))).
Proof.
  intros Hn.
  destruct (good_reply pf (spawned t) kat_key kat_pt_bytes) eqn:G0.
  - destruct (first_bad_or_all_good pf (S (spawned t)) (drawn t)
                (Z.to_nat (n - 1))) as [G|(j & Hj & G & B)].
    + right. right. repeat split; try assumption.
      now apply (main_all_good argv n t).
    + right. left. exists j. repeat split; try assumption.
      now apply (main_first_bad argv n t j).
  - left. split; [reflexivity|]. now apply (main_kat_bad argv n t).
Qed.

Lemma drawn_flat_random d k :
  drawn (flat_map (random_events pf d) (seq 0 k)) = 32 * k.
Proof.
  assert (H : forall s, drawn (flat_map (random_events pf d) (seq s k))
                        = 32 * k).
  { induction k as [|k IH]; intros s; [reflexivity|].
    cbn [seq flat_map]. rewrite drawn_app, IH, drawn_random_events. lia. }
  apply H.
Qed.

Lemma drawn_generation t k : drawn (generation_events pf t k) = 32 * k.
Proof.
  unfold generation_events, kat_event. cbn [drawn].
  apply drawn_flat_random.
Qed.

Lemma generation_events_S t k :
  generation_events pf t (S k)
  = generation_events pf t k ++ random_events pf (drawn t) k.
Proof.
  unfold generation_events.
  rewrite seq_S, flat_map_app. cbn [flat_map Nat.add].
  now rewrite app_nil_r, app_comm_cons.
Qed.

Lemma openssl_argv_ok k :
  Hex.is_field k = true -> is_openssl_argv (openssl_argv k) = true.
Proof.
  intros H. unfold is_openssl_argv, openssl_argv. rewrite H. reflexivity.
Qed.

Lemma forallb_flat_map {A B : Type} (p : B -> bool) (f : A -> list B)
      (l : list A) :
  (forall x, forallb p (f x) = true) -> forallb p (flat_map f l) = true.
Proof.
  intros H. induction l as [|x l IH]; [reflexivity|].
  cbn [flat_map]. now rewrite forallb_app, H, IH.
Qed.

Lemma block_events_random d j :
  forallb is_block_event (random_events pf d j) = true.
Proof.
  unfold random_events. cbn [forallb is_block_event].
  rewrite openssl_argv_ok
    by apply HexFacts.is_field_bytes_hex, length_random_key.
  now rewrite length_random_pt.
Qed.

Lemma block_events_generation t k :
  forallb is_block_event (generation_events pf t k) = true.
Proof.
  unfold generation_events.
  change (forallb is_block_event (kat_event :: ?r))
    with (is_block_event kat_event && forallb is_block_event r).
  rewrite forallb_flat_map by apply block_events_random. reflexivity.
Qed.

(** The lines of the written text are the lines that were generated. *)
Lemma file_lines_generated t k :
  good_reply pf (spawned t) kat_key kat_pt_bytes = true ->
  good_upto pf (S (spawned t)) (drawn t) k ->
  file_lines (Text.join Text.nl (generated_lines pf t k) +++ Text.nl)
  = generated_lines pf t k.
Proof.
  intros G0 G.
  destruct (written_text_well_formed (generated_lines pf t k)) as [S _].
  - discriminate.
  - now apply generated_lines_fields.
  - unfold file_lines. now rewrite S, removelast_last.
Qed.

Lemma decode_vector_line (a b c : list byte) :
  List.length a = 16 -> List.length b = 16 -> List.length c = 16 ->
  decode_line (vector_line (Hex.bytes_hex a) (Hex.bytes_hex b)
                 (Hex.bytes_hex c))
  = [Some a; Some b; Some c].
Proof.
  intros La Lb Lc. unfold decode_line.
  rewrite vector_line_fields by now apply HexFacts.is_field_bytes_hex.
  cbn [map]. now rewrite !HexFacts.fromhex_hex.
Qed.

End Stages.

(** C1, as stated, fails: a process that answers the known-answer pair
    with 16 bytes other than the canonical ciphertext is not detected.  On
    the echoing platform the answer is the plaintext itself, the run
    completes and the line with that answer is written. *)
Lemma kat_mismatch_is_accepted :
  Hex.bytes_hex (reply_stdout Sample.echo 0 kat_key kat_pt_bytes)
    <> kat_expected
  /\ fst (main Sample.echo ["gen"; "1"; "out.txt"] []) = Ok tt
  /\ file_contents "out.txt" (snd (main Sample.echo ["gen"; "1"; "out.txt"] []))
     = Some (vector_line kat_key kat_pt "00112233445566778899aabbccddeeff"
             +++ Text.nl).
Proof.
  split; [|split].
  - vm_compute. discriminate.
  - vm_compute. reflexivity.
  - vm_compute. reflexivity.
Qed.

(** C1, amended.  The ciphertext of the known-answer pair is taken as the
    process returns it and compared with nothing: when the first process
    exits with status 0 and 16 bytes, whatever they are, the adapter
    returns their hexadecimal form; a run for a count of at most 1 whose
    output phase meets no error (the file opens, the write, the close and
    the print succeed) then completes and writes exactly the line made of
    the known-answer key, the known-answer plaintext and that ciphertext;
    and every run that completes has that line as its first line. *)
Theorem kat_ciphertext_taken_as_returned
        (pf : platform) (argv : list string) (t : trace) :
  good_reply pf (spawned t) kat_key kat_pt_bytes = true ->
  openssl_aes128_ecb_encrypt pf kat_key kat_pt t
  = (Ok (Hex.bytes_hex (reply_stdout pf (spawned t) kat_key kat_pt_bytes)),
     t ++ [kat_event])
  /\ (forall n,
         arg_count pf argv = Some n -> (n <= 1)%Z ->
         output_accepted pf (arg_path argv) [kat_line pf (spawned t)]
         = true ->
         main pf argv t
         = (Ok tt,
            (t ++ [kat_event])
              ++ output_events (arg_path argv) [kat_line pf (spawned t)]))
  /\ (forall t',
         main pf argv t = (Ok tt, t') ->
         exists rest,
           file_contents (arg_path argv) t'
           = Some (kat_line pf (spawned t) +++ Text.nl +++ rest)).
Proof.
  intros G. split; [|split].
  - rewrite adapter_kat. now apply after_spawn_good.
  - intros n Hn Hle Ho.
    rewrite (main_single pf argv n t Hn Hle), (after_spawn_good pf _ _ _ G).
    now apply output_phase_accepted.
  - intros t' H. apply main_ok_inv in H as (n & _ & _ & _ & _ & ->).
    rewrite app_assoc, file_contents_output. unfold generated_lines.
    destruct (TextFacts.join_head (kat_line pf (spawned t))
                (map (random_line pf (S (spawned t)) (drawn t))
                     (seq 0 (Z.to_nat (n - 1))))) as (rest & ->).
    now exists rest.
Qed.

Lemma kat_ciphertext_taken_as_returned_witness :
  openssl_aes128_ecb_encrypt Sample.echo kat_key kat_pt []
  = (Ok "00112233445566778899aabbccddeeff", [kat_event])
  /\ "00112233445566778899aabbccddeeff" <> kat_expected.
Proof.
  split.
  - exact (proj1 (kat_ciphertext_taken_as_returned Sample.echo
                    ["gen"; "1"; "out.txt"] [] eq_refl)).
  - discriminate.
Defined.

(** C2, as stated, fails: a count of 0 is not rejected.  The process is
    started once and the file is written, with the known-answer line. *)
Lemma count_zero_is_not_rejected :
  arg_count Sample.echo ["gen"; "0"; "out.txt"] = Some 0%Z
  /\ fst (main Sample.echo ["gen"; "0"; "out.txt"] []) = Ok tt
  /\ spawned (snd (main Sample.echo ["gen"; "0"; "out.txt"] [])) = 1
  /\ file_contents "out.txt" (snd (main Sample.echo ["gen"; "0"; "out.txt"] []))
     = Some (vector_line kat_key kat_pt "00112233445566778899aabbccddeeff"
             +++ Text.nl).
Proof.
  repeat split; vm_compute; reflexivity.
Qed.

(** C2, amended.  A count below 1 is not checked: the run is the same as
    for a count of 1.  The known-answer call is made, so exactly one
    process is started, and nothing else is generated. *)
Theorem count_below_one_runs_as_one
        (pf : platform) (argv argv1 : list string) (n : Z) (t : trace) :
  arg_count pf argv = Some n ->
  (n < 1)%Z ->
  arg_count pf argv1 = Some 1%Z ->
  arg_path argv1 = arg_path argv ->
  main pf argv t = main pf argv1 t
  /\ spawned (snd (main pf argv t)) = S (spawned t).
Proof.
  intros Hn Hlt H1 Hp.
  rewrite (main_single pf argv n t Hn ltac:(lia)).
  rewrite (main_single pf argv1 1 t H1 ltac:(lia)), Hp.
  split; [reflexivity|].
  pose proof (after_spawn_trace pf kat_key kat_pt_bytes t) as T.
  destruct (after_spawn pf kat_key kat_pt_bytes t) as [[ct|e] t1];
    cbn [snd] in T; subst t1.
  - destruct (output_phase_events pf (arg_path argv)
                [vector_line kat_key kat_pt ct]
                (t ++ [EvSpawn (openssl_argv kat_key) kat_pt_bytes]))
      as (tail & -> & O & _).
    destruct (output_events_only _ _ O) as (S0 & _).
    rewrite !spawned_app, S0. simpl. lia.
  - cbn [snd]. rewrite spawned_app. simpl. lia.
Qed.

Lemma count_below_one_runs_as_one_witness :
  main Sample.echo ["gen"; "-3"; "out.txt"] []
  = main Sample.echo ["gen"; "1"; "out.txt"] []
  /\ spawned (snd (main Sample.echo ["gen"; "-3"; "out.txt"] [])) = 1.
Proof.
  apply (count_below_one_runs_as_one Sample.echo
           ["gen"; "-3"; "out.txt"] ["gen"; "1"; "out.txt"] (-3) []).
  - reflexivity.
  - lia.
  - reflexivity.
  - reflexivity.
Defined.

(** C3.  For a count [n >= 1], a run that completes leaves in the output
    file a text of exactly [n] lines, each made of three fields of 32
    lowercase hexadecimal characters separated by single spaces, each
    line ended by one line feed and nothing after the last one. *)
Theorem output_is_n_vector_lines
        (pf : platform) (argv : list string) (n : Z) (t t' : trace) :
  arg_count pf argv = Some n ->
  (1 <= n)%Z ->
  main pf argv t = (Ok tt, t') ->
  exists content,
    file_contents (arg_path argv) t' = Some content
    /\ well_formed_output (Z.to_nat n) content = true.
Proof.
  intros Hn Hle H.
  apply main_ok_inv in H as (n' & Hn' & _ & G0 & G & ->).
  assert (n' = n) by congruence. subst n'.
  rewrite app_assoc, file_contents_output. eexists. split; [reflexivity|].
  destruct (written_text_well_formed
              (generated_lines pf t (Z.to_nat (n - 1)))) as [_ W].
  - discriminate.
  - now apply generated_lines_fields.
  - rewrite length_generated_lines in W.
    replace (Z.to_nat n) with (S (Z.to_nat (n - 1))) by lia. exact W.
Qed.

Lemma output_is_n_vector_lines_witness :
  exists content,
    file_contents "out.txt" (snd (main Sample.echo ["gen"; "3"; "out.txt"] []))
    = Some content
    /\ well_formed_output 3 content = true.
Proof.
  apply (output_is_n_vector_lines Sample.echo ["gen"; "3"; "out.txt"] 3 []
           (snd (main Sample.echo ["gen"; "3"; "out.txt"] []))).
  - reflexivity.
  - lia.
  - vm_compute. reflexivity.
Defined.

(** C4.  For a count [n >= 1], in a run that completes the first line of
    the file carries the known-answer key and plaintext, whatever [n]; the
    file has [n] lines; and line [j + 1] is the line of the [j]-th
    iteration of the loop: its key and plaintext are the [j]-th pair of
    blocks drawn from the randomness source and its ciphertext is the
    answer of the process started for them.  The events of the run are
    the known-answer call, the iterations in order, then the output. *)
Theorem output_keeps_generation_order
        (pf : platform) (argv : list string) (n : Z) (t t' : trace) :
  arg_count pf argv = Some n ->
  (1 <= n)%Z ->
  main pf argv t = (Ok tt, t') ->
  exists content,
    file_contents (arg_path argv) t' = Some content
    /\ List.length (file_lines content) = Z.to_nat n
    /\ (exists ct,
           nth_error (file_lines content) 0
           = Some (vector_line kat_key kat_pt ct)
           /\ line_fields (vector_line kat_key kat_pt ct)
              = [kat_key; kat_pt; ct])
    /\ (forall j, j < Z.to_nat n - 1 ->
          nth_error (file_lines content) (S j)
          = Some (random_line pf (S (spawned t)) (drawn t) j))
    /\ t' = t ++ generation_events pf t (Z.to_nat n - 1)
              ++ output_events (arg_path argv) (file_lines content).
Proof.
  intros Hn Hle H.
  apply main_ok_inv in H as (n' & Hn' & _ & G0 & G & ->).
  assert (n' = n) by congruence. subst n'.
  replace (Z.to_nat n - 1) with (Z.to_nat (n - 1)) by lia.
  rewrite app_assoc, file_contents_output. eexists. split; [reflexivity|].
  destruct (written_text_well_formed
              (generated_lines pf t (Z.to_nat (n - 1)))) as [S _].
  { discriminate. }
  { now apply generated_lines_fields. }
  unfold file_lines. rewrite S, removelast_last.
  split; [rewrite length_generated_lines; lia|].
  split; [|split].
  - eexists. split; [reflexivity|].
    apply vector_line_fields; try reflexivity.
    apply HexFacts.is_field_bytes_hex. now apply good_reply_length.
  - intros j Hj. unfold generated_lines. cbn [nth_error].
    rewrite nth_error_map, nth_error_seq.
    apply Nat.ltb_lt in Hj. rewrite Hj. reflexivity.
  - now rewrite <- app_assoc.
Qed.

Lemma output_keeps_generation_order_witness :
  exists content,
    file_contents "out.txt" (snd (main Sample.echo ["gen"; "3"; "out.txt"] []))
    = Some content
    /\ List.length (file_lines content) = 3
    /\ (exists ct,
           nth_error (file_lines content) 0
           = Some (vector_line kat_key kat_pt ct)
           /\ line_fields (vector_line kat_key kat_pt ct)
              = [kat_key; kat_pt; ct])
    /\ (forall j, j < 2 ->
          nth_error (file_lines content) (S j)
          = Some (random_line Sample.echo 1 0 j))
    /\ snd (main Sample.echo ["gen"; "3"; "out.txt"] [])
       = [] ++ generation_events Sample.echo [] 2
            ++ output_events "out.txt" (file_lines content).
Proof.
  apply (output_keeps_generation_order Sample.echo ["gen"; "3"; "out.txt"]
           3 [] (snd (main Sample.echo ["gen"; "3"; "out.txt"] []))).
  - reflexivity.
  - lia.
  - vm_compute. reflexivity.
Defined.

Lemma sink_free_filter (es : list event) :
  sink_free es = true -> filter is_sink_event es = [].
Proof.
  induction es as [|e es IH]; [reflexivity|]. simpl.
  intros H. apply andb_true_iff in H as [He Hes].
  apply negb_true_iff in He. rewrite He. now apply IH.
Qed.

Lemma written_app (a b : list event) :
  written (a ++ b) = written a ++ written b.
Proof.
  induction a as [|e a IH]; [reflexivity|].
  destruct e; cbn [app written]; now rewrite IH.
Qed.

Lemma written_sink_free (es : list event) :
  sink_free es = true -> written es = [].
Proof.
  induction es as [|e es IH]; [reflexivity|]. cbn [sink_free forallb].
  intros H. apply andb_true_iff in H as [He Hes].
  destruct e; cbn in He; try discriminate; cbn [written]; now apply IH.
Qed.

(** C8.  If the known-answer call or the call of any iteration does not
    succeed, the run raises and has added no event on the output sink:
    every file is as it was.  Whatever the outcome, either nothing has
    been written, or [f.write] has been called exactly once, with the
    whole text of all the lines, after every process was started and had
    answered well.  And when every process answers well and the output
    phase meets no error, the run completes: the sink is touched exactly
    once, the file is opened, the whole text is written in a single
    write and the file is closed, and the file holds that text. *)
Theorem sink_written_once_at_the_end
        (pf : platform) (argv : list string) (n : Z) (t : trace) :
  arg_count pf argv = Some n ->
  ((good_reply pf (spawned t) kat_key kat_pt_bytes = false
    \/ exists j, j < Z.to_nat (n - 1)
         /\ good_reply pf (S (spawned t) + j)
              (Hex.bytes_hex (random_key pf (drawn t) j))
              (random_pt pf (drawn t) j) = false) ->
   exists e es,
     main pf argv t = (Raise e, t ++ es)
     /\ sink_free es = true
     /\ forall p, file_contents p (t ++ es) = file_contents p t)
  /\ (exists es,
        snd (main pf argv t) = t ++ es
        /\ (written es = []
            \/ (written es
                = [(arg_path argv,
                    Text.join Text.nl
                      (generated_lines pf t (Z.to_nat (n - 1)))
                    +++ Text.nl)]
                /\ good_reply pf (spawned t) kat_key kat_pt_bytes = true
                /\ good_upto pf (S (spawned t)) (drawn t) (Z.to_nat (n - 1))
                /\ exists tail,
                     es = generation_events pf t (Z.to_nat (n - 1)) ++ tail
                     /\ forallb (is_output_event (arg_path argv)) tail
                        = true)))
  /\ (good_reply pf (spawned t) kat_key kat_pt_bytes = true ->
      good_upto pf (S (spawned t)) (drawn t) (Z.to_nat (n - 1)) ->
      output_accepted pf (arg_path argv)
        (generated_lines pf t (Z.to_nat (n - 1))) = true ->
      main pf argv t
      = (Ok tt,
         t ++ generation_events pf t (Z.to_nat (n - 1))
           ++ output_events (arg_path argv)
                (generated_lines pf t (Z.to_nat (n - 1))))
      /\ filter is_sink_event
           (generation_events pf t (Z.to_nat (n - 1))
              ++ output_events (arg_path argv)
                   (generated_lines pf t (Z.to_nat (n - 1))))
         = [EvOpen (arg_path argv);
            EvWrite (arg_path argv)
              (Text.join Text.nl (generated_lines pf t (Z.to_nat (n - 1)))
               +++ Text.nl);
            EvClose (arg_path argv)]
      /\ spawned (generation_events pf t (Z.to_nat (n - 1)))
         = List.length (generated_lines pf t (Z.to_nat (n - 1)))
      /\ file_contents (arg_path argv)
           (t ++ generation_events pf t (Z.to_nat (n - 1))
              ++ output_events (arg_path argv)
                   (generated_lines pf t (Z.to_nat (n - 1))))
         = Some (Text.join Text.nl (generated_lines pf t (Z.to_nat (n - 1)))
                 +++ Text.nl)).
Proof.
  intros Hn. split; [|split].
  - intros Hbad.
    assert (U : forall es, sink_free es = true ->
                forall p, file_contents p (t ++ es) = file_contents p t).
    { intros es F p. rewrite file_contents_app.
      now apply file_contents_sink_free. }
    destruct (main_cases pf argv n t Hn)
      as [(_ & E)|[(j & _ & _ & E)|(G0 & G & _)]].
    + eexists. exists [kat_event]. rewrite E. repeat split. now apply U.
    + eexists. exists (generation_events pf t (S j)). rewrite E.
      pose proof (sink_free_generation pf t (S j)) as F.
      repeat split; [exact F | now apply U].
    + exfalso. destruct Hbad as [B|(j & Hj & B)]; [congruence|].
      specialize (G j Hj). congruence.
  - destruct (main_cases pf argv n t Hn)
      as [(_ & E)|[(j & _ & _ & E)|(G0 & G & E)]]; rewrite E; cbn [snd].
    + exists [kat_event]. auto.
    + exists (generation_events pf t (S j)). split; [reflexivity|].
      left. apply written_sink_free, sink_free_generation.
    + destruct (output_phase_events pf (arg_path argv)
                  (generated_lines pf t (Z.to_nat (n - 1)))
                  (t ++ generation_events pf t (Z.to_nat (n - 1))))
        as (tail & -> & O & W).
      exists (generation_events pf t (Z.to_nat (n - 1)) ++ tail).
      split; [now rewrite app_assoc|].
      rewrite written_app,
        (written_sink_free _ (sink_free_generation pf t _)).
      destruct W as [->|W]; [left; reflexivity|].
      right. cbn [app]. repeat split; try assumption. now exists tail.
  - intros G0 G A.
    rewrite (main_all_good pf argv n t Hn G0 G).
    rewrite (output_phase_accepted pf _ _ _ A), <- app_assoc.
    split; [reflexivity|]. split; [|split].
    + rewrite filter_app,
        (sink_free_filter _ (sink_free_generation pf t _)). reflexivity.
    + now rewrite spawned_generation, length_generated_lines.
    + rewrite app_assoc. apply file_contents_output.
Qed.

Lemma sink_written_once_at_the_end_witness :
  (exists e es,
      main (Sample.failing_after 2) ["gen"; "4"; "out.txt"] []
      = (Raise e, [] ++ es)
      /\ sink_free es = true
      /\ forall p, file_contents p ([] ++ es) = file_contents p [])
  /\ (main Sample.echo ["gen"; "3"; "out.txt"] []
      = (Ok tt,
         [] ++ generation_events Sample.echo [] 2
            ++ output_events "out.txt" (generated_lines Sample.echo [] 2))
      /\ filter is_sink_event
           (generation_events Sample.echo [] 2
              ++ output_events "out.txt" (generated_lines Sample.echo [] 2))
         = [EvOpen "out.txt";
            EvWrite "out.txt"
              (Text.join Text.nl (generated_lines Sample.echo [] 2)
               +++ Text.nl);
            EvClose "out.txt"]
      /\ spawned (generation_events Sample.echo [] 2)
         = List.length (generated_lines Sample.echo [] 2)
      /\ file_contents "out.txt"
           ([] ++ generation_events Sample.echo [] 2
               ++ output_events "out.txt" (generated_lines Sample.echo [] 2))
         = Some (Text.join Text.nl (generated_lines Sample.echo [] 2)
                 +++ Text.nl))
  /\ (exists es,
        snd (main Sample.full_disk ["gen"; "3"; "out.txt"] []) = [] ++ es
        /\ written es
           = [("out.txt",
               Text.join Text.nl (generated_lines Sample.full_disk [] 2)
               +++ Text.nl)]).
Proof.
  split; [|split].
  - apply (proj1 (sink_written_once_at_the_end (Sample.failing_after 2)
                    ["gen"; "4"; "out.txt"] 4 [] eq_refl)).
    right. exists 1. split; [vm_compute; lia | reflexivity].
  - apply (proj2 (proj2 (sink_written_once_at_the_end Sample.echo
                           ["gen"; "3"; "out.txt"] 3 [] eq_refl))).
    + reflexivity.
    + intros j Hj. change (Z.to_nat (3 - 1)) with 2 in Hj.
      destruct j as [|[|j]]; [reflexivity | reflexivity | lia].
    + reflexivity.
  - destruct (proj1 (proj2 (sink_written_once_at_the_end Sample.full_disk
                              ["gen"; "3"; "out.txt"] 3 [] eq_refl)))
      as (es & E & [W|(W & _)]).
    + exfalso. revert W. rewrite <- (app_nil_l es), <- E.
      vm_compute. discriminate.
    + exists es. split; assumption.
Defined.

(** C9.  For a count [n >= 1], a run that completes has started exactly
    [n] processes, one per adapter call and one adapter call per vector,
    and its last action is to print that [n] vectors were written. *)
Theorem one_call_per_vector_and_count_reported
        (pf : platform) (argv : list string) (n : Z) (t t' : trace) :
  arg_count pf argv = Some n ->
  (1 <= n)%Z ->
  main pf argv t = (Ok tt, t') ->
  spawned t' = spawned t + Z.to_nat n
  /\ exists before,
       t' = before
              ++ [EvPrint ("Wrote " +++ Text.str_of_nat (Z.to_nat n)
                           +++ " vectors to " +++ arg_path argv)].
Proof.
  intros Hn Hle H.
  apply main_ok_inv in H as (n' & Hn' & _ & _ & _ & ->).
  assert (n' = n) by congruence. subst n'.
  split.
  - rewrite !spawned_app, spawned_generation. simpl. lia.
  - unfold output_events. rewrite length_generated_lines.
    replace (S (Z.to_nat (n - 1))) with (Z.to_nat n) by lia.
    eexists (t ++ generation_events pf t (Z.to_nat (n - 1)) ++ [_; _; _]).
    rewrite <- !app_assoc. reflexivity.
Qed.

Lemma one_call_per_vector_and_count_reported_witness :
  spawned (snd (main Sample.echo ["gen"; "3"; "out.txt"] [])) = 0 + 3
  /\ exists before,
       snd (main Sample.echo ["gen"; "3"; "out.txt"] [])
       = before ++ [EvPrint "Wrote 3 vectors to out.txt"].
Proof.
  apply (one_call_per_vector_and_count_reported Sample.echo
           ["gen"; "3"; "out.txt"] 3 []
           (snd (main Sample.echo ["gen"; "3"; "out.txt"] []))).
  - reflexivity.
  - lia.
  - vm_compute. reflexivity.
Defined.





(** * Further properties of the adapter and the generator *)


(** ** The adapter, completed *)

(** X13.  The adapter returns exactly when both arguments decode to 16
    bytes and the process it starts exits with status 0 and 16 bytes of
    output; what it returns is the hexadecimal form of that output, and
    one process has been started. *)
Theorem adapter_returns_iff
        (pf : platform) (key_hex pt_hex ct : string) (t t' : trace) :
  openssl_aes128_ecb_encrypt pf key_hex pt_hex t = (Ok ct, t')
  <-> exists p,
        Hex.bytes_fromhex pt_hex = Some p
        /\ decodes_to_block key_hex = true
        /\ List.length p = 16
        /\ good_reply pf (spawned t) key_hex p = true
        /\ ct = Hex.bytes_hex (reply_stdout pf (spawned t) key_hex p)
        /\ t' = t ++ [EvSpawn (openssl_argv key_hex) p].
Proof.
  split.
  - intros H. apply adapter_ok_inv in H as (p & Hp & Hk & Lp & G & C & _ & T).
    exists p. auto 10.
  - intros (p & Hp & Hk & Lp & G & -> & ->).
    apply decodes_to_block_inv in Hk as (k & Hk & Lk).
    rewrite (adapter_accepts pf _ _ _ _ t Hk Hp Lk Lp).
    now apply after_spawn_good.
Qed.

(** X14.  When both arguments decode to 16 bytes, the adapter starts
    exactly one process whatever happens next: the key string is passed
    after [-K] as it was given (upper case and white space included), the
    decoded plaintext is the input, and the outcome is the hexadecimal
    output when the process answers well and the error of the reply when
    it does not. *)
Theorem adapter_passes_key_verbatim
        (pf : platform) (key_hex pt_hex : string) (p : list byte)
        (t : trace) :
  decodes_to_block key_hex = true ->
  Hex.bytes_fromhex pt_hex = Some p ->
  List.length p = 16 ->
  openssl_aes128_ecb_encrypt pf key_hex pt_hex t
  = (if good_reply pf (spawned t) key_hex p
     then Ok (Hex.bytes_hex (reply_stdout pf (spawned t) key_hex p))
     else Raise (reply_error pf (spawned t) key_hex p),
     t ++ [EvSpawn (openssl_argv key_hex) p]).
Proof.
  intros Hk Hp Lp. apply decodes_to_block_inv in Hk as (k & Hk & Lk).
  rewrite (adapter_accepts pf _ _ _ _ t Hk Hp Lk Lp).
  destruct (good_reply pf (spawned t) key_hex p) eqn:G.
  - now apply after_spawn_good.
  - now apply after_spawn_bad.
Qed.

Lemma adapter_passes_key_verbatim_witness :
  openssl_aes128_ecb_encrypt Sample.echo
    "00 01 02 03 04 05 06 07 08 09 0A 0B 0C 0D 0E 0F" kat_pt []
  = (Ok "00112233445566778899aabbccddeeff",
     [EvSpawn
        (openssl_argv "00 01 02 03 04 05 06 07 08 09 0A 0B 0C 0D 0E 0F")
        kat_pt_bytes]).
Proof.
  apply (adapter_passes_key_verbatim Sample.echo
           "00 01 02 03 04 05 06 07 08 09 0A 0B 0C 0D 0E 0F" kat_pt
           kat_pt_bytes []).
  - reflexivity.
  - reflexivity.
  - reflexivity.
Defined.

(** ** The generator, completed *)

(** X1.  A run completes exactly when the count can be read, the
    known-answer process and the process of every iteration exit with
    status 0 and 16 bytes, and the output phase meets no error: the file
    opens, the write of the whole text and the close succeed, and the
    report is printed. *)
Theorem main_completes_iff
        (pf : platform) (argv : list string) (t : trace) :
  (exists t', main pf argv t = (Ok tt, t'))
  <-> exists n,
        arg_count pf argv = Some n
        /\ good_reply pf (spawned t) kat_key kat_pt_bytes = true
        /\ good_upto pf (S (spawned t)) (drawn t) (Z.to_nat (n - 1))
        /\ output_accepted pf (arg_path argv)
             (generated_lines pf t (Z.to_nat (n - 1))) = true.
Proof.
  split.
  - intros (t' & H). apply main_ok_inv in H as (n & Hn & A & G0 & G & _).
    exists n. auto.
  - intros (n & Hn & G0 & G & A).
    rewrite (main_all_good pf argv n t Hn G0 G).
    rewrite (output_phase_accepted pf _ _ _ A). eauto.
Qed.

(** X2.  When the known-answer process does not answer well, the run
    raises the error of that reply at once: one process has been started
    and no random byte has been drawn. *)
Theorem kat_failure_stops_before_randomness
        (pf : platform) (argv : list string) (n : Z) (t : trace) :
  arg_count pf argv = Some n ->
  good_reply pf (spawned t) kat_key kat_pt_bytes = false ->
  main pf argv t
  = (Raise (reply_error pf (spawned t) kat_key kat_pt_bytes),
     t ++ [kat_event])
  /\ spawned (snd (main pf argv t)) = S (spawned t)
  /\ drawn (snd (main pf argv t)) = drawn t.
Proof.
  intros Hn B. rewrite (main_kat_bad pf argv n t Hn B). cbn [snd].
  now rewrite spawned_after_kat, drawn_after_kat.
Qed.

Lemma kat_failure_stops_before_randomness_witness :
  main Sample.failing ["gen"; "3"; "out.txt"] []
  = (Raise (reply_error Sample.failing 0 kat_key kat_pt_bytes),
     [] ++ [kat_event])
  /\ spawned (snd (main Sample.failing ["gen"; "3"; "out.txt"] [])) = 1
  /\ drawn (snd (main Sample.failing ["gen"; "3"; "out.txt"] [])) = 0.
Proof.
  apply (kat_failure_stops_before_randomness Sample.failing
           ["gen"; "3"; "out.txt"] 3 []).
  - reflexivity.
  - reflexivity.
Defined.

(** X3.  When the known-answer process and the processes of the first
    [j] iterations answer well and the process of iteration [j] does
    not, the run raises the error of that reply and stops there: [j + 2]
    processes have been started, [32 * (j + 1)] random bytes drawn, and
    the sink has not been touched. *)
Theorem first_bad_reply_stops_the_run
        (pf : platform) (argv : list string) (n : Z) (t : trace) (j : nat) :
  arg_count pf argv = Some n ->
  good_reply pf (spawned t) kat_key kat_pt_bytes = true ->
  j < Z.to_nat (n - 1) ->
  good_upto pf (S (spawned t)) (drawn t) j ->
  good_reply pf (S (spawned t) + j)
    (Hex.bytes_hex (random_key pf (drawn t) j))
    (random_pt pf (drawn t) j) = false ->
  main pf argv t
  = (Raise (reply_error pf (S (spawned t) + j)
              (Hex.bytes_hex (random_key pf (drawn t) j))
              (random_pt pf (drawn t) j)),
     t ++ generation_events pf t (S j))
  /\ spawned (snd (main pf argv t)) = spawned t + (j + 2)
  /\ drawn (snd (main pf argv t)) = drawn t + 32 * (j + 1)
  /\ sink_free (generation_events pf t (S j)) = true.
Proof.
  intros Hn G0 Hj G B. rewrite (main_first_bad pf argv n t j Hn G0 Hj G B).
  cbn [snd]. rewrite spawned_app, drawn_app.
  rewrite spawned_generation, drawn_generation, sink_free_generation.
  repeat split; lia.
Qed.

Lemma first_bad_reply_stops_the_run_witness :
  spawned (snd (main (Sample.failing_after 2) ["gen"; "4"; "out.txt"] []))
  = 0 + (1 + 2)
  /\ drawn (snd (main (Sample.failing_after 2) ["gen"; "4"; "out.txt"] []))
     = 0 + 32 * (1 + 1).
Proof.
  destruct (first_bad_reply_stops_the_run (Sample.failing_after 2)
              ["gen"; "4"; "out.txt"] 4 [] 1) as (_ & S & D & _).
  - reflexivity.
  - reflexivity.
  - vm_compute. lia.
  - intros i Hi. assert (i = 0) by lia. subst i. reflexivity.
  - reflexivity.
  - split; assumption.
Defined.

(** X4.  When every process answers well but the output file cannot be
    opened, the run raises what [open] raises ([OSError], or [ValueError]
    for a path that is rejected as such) only after the whole generation:
    all the processes have been started, and nothing is written or
    printed. *)
Theorem unwritable_path_fails_after_generation
        (pf : platform) (argv : list string) (n : Z) (t : trace)
        (e : io_error) :
  arg_count pf argv = Some n ->
  good_reply pf (spawned t) kat_key kat_pt_bytes = true ->
  good_upto pf (S (spawned t)) (drawn t) (Z.to_nat (n - 1)) ->
  open_error pf (arg_path argv) = Some e ->
  main pf argv t
  = (Raise (exn_of_io e),
     t ++ generation_events pf t (Z.to_nat (n - 1)))
  /\ spawned (snd (main pf argv t)) = spawned t + S (Z.to_nat (n - 1)).
Proof.
  intros Hn G0 G Ho. rewrite (main_all_good pf argv n t Hn G0 G).
  rewrite (output_phase_open_fails pf _ _ _ _ Ho).
  cbn [snd]. now rewrite spawned_app, spawned_generation.
Qed.

Lemma unwritable_path_fails_after_generation_witness :
  (main Sample.read_only ["gen"; "3"; "out.txt"] []
   = (Raise OSError, [] ++ generation_events Sample.read_only [] 2)
   /\ spawned (snd (main Sample.read_only ["gen"; "3"; "out.txt"] []))
      = 0 + 3)
  /\ (main Sample.bad_path ["gen"; "3"; "out.txt"] []
      = (Raise ValueError, [] ++ generation_events Sample.bad_path [] 2)
      /\ spawned (snd (main Sample.bad_path ["gen"; "3"; "out.txt"] []))
         = 0 + 3).
Proof.
  split.
  - apply (unwritable_path_fails_after_generation Sample.read_only
             ["gen"; "3"; "out.txt"] 3 [] IoOSError).
    + reflexivity.
    + reflexivity.
    + intros j Hj. change (Z.to_nat (3 - 1)) with 2 in Hj.
      destruct j as [|[|j]]; [reflexivity | reflexivity | lia].
    + reflexivity.
  - apply (unwritable_path_fails_after_generation Sample.bad_path
             ["gen"; "3"; "out.txt"] 3 [] IoValueError).
    + reflexivity.
    + reflexivity.
    + intros j Hj. change (Z.to_nat (3 - 1)) with 2 in Hj.
      destruct j as [|[|j]]; [reflexivity | reflexivity | lia].
    + reflexivity.
Defined.

(** X5.  Whatever the outcome of a run with a readable count, random
    bytes are drawn only as they are needed: if [m] iterations of the
    loop were begun, [m + 1] processes have been started and exactly
    [32 * m] bytes drawn; [m] is at most the number of random vectors
    asked for, and equals it when the run completes. *)
Theorem random_bytes_drawn_as_needed
        (pf : platform) (argv : list string) (n : Z) (t t' : trace)
        (r : outcome unit) :
  arg_count pf argv = Some n ->
  main pf argv t = (r, t') ->
  exists m,
    m <= Z.to_nat (n - 1)
    /\ spawned t' = spawned t + S m
    /\ drawn t' = drawn t + 32 * m
    /\ (r = Ok tt -> m = Z.to_nat (n - 1)).
Proof.
  intros Hn H.
  destruct (main_cases pf argv n t Hn)
    as [(_ & E)|[(j & Hj & _ & E)|(_ & _ & E)]];
    rewrite E in H.
  - apply pair_equal_spec in H as [<- <-]. exists 0.
    rewrite spawned_after_kat, drawn_after_kat.
    repeat split; try lia. discriminate.
  - apply pair_equal_spec in H as [<- <-]. exists (S j).
    rewrite spawned_app, drawn_app, spawned_generation, drawn_generation.
    repeat split; try lia. discriminate.
  - exists (Z.to_nat (n - 1)).
    destruct (output_phase_events pf (arg_path argv)
                (generated_lines pf t (Z.to_nat (n - 1)))
                (t ++ generation_events pf t (Z.to_nat (n - 1))))
      as (tail & T & O & _).
    rewrite H in T. cbn [snd] in T. subst t'.
    destruct (output_events_only _ _ O) as (S0 & D0 & _).
    rewrite !spawned_app, !drawn_app, spawned_generation, drawn_generation,
      S0, D0.
    repeat split; lia.
Qed.

Lemma random_bytes_drawn_as_needed_witness :
  exists m,
    m <= Z.to_nat (4 - 1)
    /\ spawned (snd (main (Sample.failing_after 2)
                       ["gen"; "4"; "out.txt"] [])) = 0 + S m
    /\ drawn (snd (main (Sample.failing_after 2)
                     ["gen"; "4"; "out.txt"] [])) = 0 + 32 * m
    /\ (fst (main (Sample.failing_after 2) ["gen"; "4"; "out.txt"] [])
        = Ok tt -> m = Z.to_nat (4 - 1)).
Proof.
  apply (random_bytes_drawn_as_needed (Sample.failing_after 2)
           ["gen"; "4"; "out.txt"] 4 []).
  - reflexivity.
  - vm_compute. reflexivity.
Defined.



(** X7.  A run raises [AssertionError] only when the last process it
    started, with a key of 32 lowercase hexadecimal characters and 16
    bytes of input, exited with status 0 and an output that is not 16
    bytes long: the assertion on the lengths of the adapter's own
    arguments never fails inside the generator. *)
Theorem assertion_error_means_malformed_output
        (pf : platform) (argv : list string) (t t' : trace) :
  main pf argv t = (Raise AssertionError, t') ->
  exists es key_hex p cp,
    t' = (t ++ es) ++ [EvSpawn (openssl_argv key_hex) p]
    /\ run_process pf (spawned (t ++ es)) (openssl_argv key_hex) p = Some cp
    /\ returncode cp = 0%Z
    /\ List.length (stdout cp) <> 16
    /\ Hex.is_field key_hex = true
    /\ List.length p = 16.
Proof.
  intros H. destruct (arg_count pf argv) as [n|] eqn:Hn.
  - destruct (main_cases pf argv n t Hn)
      as [(B & E)|[(j & _ & B & E)|(_ & _ & E)]];
      rewrite E in H.
    + apply pair_equal_spec in H as [H <-]. injection H as H.
      destruct (reply_error_assertion pf _ _ _ B H) as (cp & R & C & L).
      exists [], kat_key, kat_pt_bytes, cp. rewrite app_nil_r.
      auto 10.
    + apply pair_equal_spec in H as [H <-]. injection H as H.
      destruct (reply_error_assertion pf _ _ _ B H) as (cp & R & C & L).
      exists (generation_events pf t j ++ [EvRandom 16; EvRandom 16]),
        (Hex.bytes_hex (random_key pf (drawn t) j)),
        (random_pt pf (drawn t) j), cp.
      assert (Sp : spawned (t ++ generation_events pf t j
                              ++ [EvRandom 16; EvRandom 16])
                   = S (spawned t) + j).
      { rewrite !spawned_app, spawned_generation. cbn [spawned]. lia. }
      rewrite Sp.
      split; [|split; [exact R|]; split; [exact C|]; split; [exact L|];
               split; [|apply length_random_pt];
               apply HexFacts.is_field_bytes_hex, length_random_key].
      rewrite generation_events_S, <- !app_assoc. reflexivity.
    + apply output_phase_raise_io in H as ([|] & H); discriminate H.
  - rewrite (main_no_count pf argv t Hn) in H. discriminate.
Qed.

Lemma assertion_error_means_malformed_output_witness :
  exists es key_hex p cp,
    snd (main Sample.short ["gen"; "2"; "out.txt"] [])
    = ([] ++ es) ++ [EvSpawn (openssl_argv key_hex) p]
    /\ run_process Sample.short (spawned ([] ++ es)) (openssl_argv key_hex) p
       = Some cp
    /\ returncode cp = 0%Z
    /\ List.length (stdout cp) <> 16
    /\ Hex.is_field key_hex = true
    /\ List.length p = 16.
Proof.
  apply (assertion_error_means_malformed_output Sample.short
           ["gen"; "2"; "out.txt"] []
           (snd (main Sample.short ["gen"; "2"; "out.txt"] []))).
  vm_compute. reflexivity.
Defined.

(** X8.  Whatever the outcome, every event a run adds handles whole
    blocks: each draw from the randomness source is of 16 bytes, and each
    process is started with the [openssl enc -aes-128-ecb -K <key>
    -nosalt -nopad] command line, a key of 32 lowercase hexadecimal
    characters and exactly 16 bytes of input. *)
Theorem every_process_gets_blocks
        (pf : platform) (argv : list string) (t : trace) :
  exists es,
    snd (main pf argv t) = t ++ es
    /\ forallb is_block_event es = true.
Proof.
  destruct (arg_count pf argv) as [n|] eqn:Hn.
  - destruct (main_cases pf argv n t Hn)
      as [(_ & E)|[(j & _ & _ & E)|(_ & _ & E)]];
      rewrite E.
    + exists [kat_event]. split; reflexivity.
    + exists (generation_events pf t (S j)).
      split; [reflexivity | apply block_events_generation].
    + destruct (output_phase_events pf (arg_path argv)
                  (generated_lines pf t (Z.to_nat (n - 1)))
                  (t ++ generation_events pf t (Z.to_nat (n - 1))))
        as (tail & -> & O & _).
      destruct (output_events_only _ _ O) as (_ & _ & B & _).
      exists (generation_events pf t (Z.to_nat (n - 1)) ++ tail).
      split; [now rewrite app_assoc|].
      now rewrite forallb_app, block_events_generation, B.
  - rewrite (main_no_count pf argv t Hn). exists [].
    now rewrite app_nil_r.
Qed.

(** X9.  Whatever the outcome, a run leaves every file other than the
    output path as it was. *)
Theorem only_output_file_changes
        (pf : platform) (argv : list string) (t : trace) (p : string) :
  p <> arg_path argv ->
  file_contents p (snd (main pf argv t)) = file_contents p t.
Proof.
  intros Hp. destruct (arg_count pf argv) as [n|] eqn:Hn.
  - destruct (main_cases pf argv n t Hn)
      as [(_ & E)|[(j & _ & _ & E)|(_ & _ & E)]];
      rewrite E; cbn [snd].
    + rewrite file_contents_app. now apply file_contents_sink_free.
    + rewrite file_contents_app.
      apply file_contents_sink_free, sink_free_generation.
    + destruct (output_phase_events pf (arg_path argv)
                  (generated_lines pf t (Z.to_nat (n - 1)))
                  (t ++ generation_events pf t (Z.to_nat (n - 1))))
        as (tail & -> & O & _).
      destruct (output_events_only _ _ O) as (_ & _ & _ & F).
      rewrite file_contents_app, (F p _ Hp), file_contents_app.
      apply file_contents_sink_free, sink_free_generation.
  - now rewrite (main_no_count pf argv t Hn).
Qed.

Lemma only_output_file_changes_witness :
  file_contents "other.txt"
    (snd (main Sample.echo ["gen"; "3"; "out.txt"]
            [EvOpen "other.txt"; EvWrite "other.txt" "kept";
             EvClose "other.txt"]))
  = file_contents "other.txt"
      [EvOpen "other.txt"; EvWrite "other.txt" "kept"; EvClose "other.txt"].
Proof.
  apply (only_output_file_changes Sample.echo ["gen"; "3"; "out.txt"]).
  discriminate.
Defined.

Lemma good_upto_of_main_ok pf t k :
  (forall j, j < k ->
     good_reply pf (S (spawned t) + j)
       (Hex.bytes_hex (random_key pf (drawn t) j))
       (random_pt pf (drawn t) j) = true) ->
  good_upto pf (S (spawned t)) (drawn t) k.
Proof. intros G j Hj. now apply G. Qed.

(** X10.  The file of a completed run reads back to the blocks that were
    generated: split into lines and fields and decoded from hexadecimal,
    line 0 gives the known-answer key and plaintext and the bytes the
    first process returned, and line [j + 1] gives the key and plaintext
    drawn in iteration [j] and the bytes the process started for them
    returned. *)
Theorem written_file_reads_back
        (pf : platform) (argv : list string) (n : Z) (t t' : trace) :
  arg_count pf argv = Some n ->
  main pf argv t = (Ok tt, t') ->
  exists content,
    file_contents (arg_path argv) t' = Some content
    /\ nth_error (map decode_line (file_lines content)) 0
       = Some [Some kat_key_bytes; Some kat_pt_bytes;
               Some (reply_stdout pf (spawned t) kat_key kat_pt_bytes)]
    /\ forall j, j < Z.to_nat (n - 1) ->
         nth_error (map decode_line (file_lines content)) (S j)
         = Some [Some (random_key pf (drawn t) j);
                 Some (random_pt pf (drawn t) j);
                 Some (reply_stdout pf (S (spawned t) + j)
                         (Hex.bytes_hex (random_key pf (drawn t) j))
                         (random_pt pf (drawn t) j))].
Proof.
  intros Hn H.
  apply main_ok_inv in H as (n' & Hn' & _ & G0 & G & ->).
  assert (n' = n) by congruence. subst n'.
  rewrite app_assoc, file_contents_output. eexists. split; [reflexivity|].
  rewrite (file_lines_generated pf t _ G0 (good_upto_of_main_ok pf t _ G)).
  unfold generated_lines. cbn [map nth_error]. split.
  - unfold kat_line.
    change kat_key with (Hex.bytes_hex kat_key_bytes).
    change kat_pt with (Hex.bytes_hex kat_pt_bytes).
    rewrite decode_vector_line; try reflexivity.
    now apply good_reply_length.
  - intros j Hj. rewrite map_map, nth_error_map, nth_error_seq.
    apply Nat.ltb_lt in Hj. rewrite Hj. cbn [option_map Nat.add].
    unfold random_line. rewrite decode_vector_line.
    + reflexivity.
    + apply length_random_key.
    + apply length_random_pt.
    + apply good_reply_length, G. now apply Nat.ltb_lt.
Qed.

Lemma written_file_reads_back_witness :
  exists content,
    file_contents "out.txt" (snd (main Sample.echo ["gen"; "3"; "out.txt"] []))
    = Some content
    /\ nth_error (map decode_line (file_lines content)) 0
       = Some [Some kat_key_bytes; Some kat_pt_bytes;
               Some (reply_stdout Sample.echo 0 kat_key kat_pt_bytes)]
    /\ forall j, j < Z.to_nat (3 - 1) ->
         nth_error (map decode_line (file_lines content)) (S j)
         = Some [Some (random_key Sample.echo 0 j);
                 Some (random_pt Sample.echo 0 j);
                 Some (reply_stdout Sample.echo (1 + j)
                         (Hex.bytes_hex (random_key Sample.echo 0 j))
                         (random_pt Sample.echo 0 j))].
Proof.
  apply (written_file_reads_back Sample.echo ["gen"; "3"; "out.txt"] 3 []
           (snd (main Sample.echo ["gen"; "3"; "out.txt"] []))).
  - reflexivity.
  - vm_compute. reflexivity.
Defined.

(** X11.  For every count, below 1 included, the number a completed run
    prints is the number of lines that are in the file: the count when it
    is at least 1, and 1 otherwise. *)
Theorem reported_count_is_line_count
        (pf : platform) (argv : list string) (n : Z) (t t' : trace) :
  arg_count pf argv = Some n ->
  main pf argv t = (Ok tt, t') ->
  exists content before,
    file_contents (arg_path argv) t' = Some content
    /\ t' = before
              ++ [EvPrint ("Wrote "
                           +++ Text.str_of_nat
                                 (List.length (file_lines content))
                           +++ " vectors to " +++ arg_path argv)]
    /\ List.length (file_lines content) = Z.to_nat (Z.max 1 n).
Proof.
  intros Hn H.
  apply main_ok_inv in H as (n' & Hn' & _ & G0 & G & ->).
  assert (n' = n) by congruence. subst n'.
  eexists.
  exists (t ++ generation_events pf t (Z.to_nat (n - 1))
            ++ [EvOpen (arg_path argv);
                EvWrite (arg_path argv)
                  (Text.join Text.nl (generated_lines pf t (Z.to_nat (n - 1)))
                   +++ Text.nl);
                EvClose (arg_path argv)]).
  split; [|split].
  - rewrite app_assoc. apply file_contents_output.
  - rewrite (file_lines_generated pf t _ G0 (good_upto_of_main_ok pf t _ G)).
    unfold output_events. rewrite <- !app_assoc. reflexivity.
  - rewrite (file_lines_generated pf t _ G0 (good_upto_of_main_ok pf t _ G)).
    rewrite length_generated_lines. lia.
Qed.

Lemma reported_count_is_line_count_witness :
  exists content before,
    file_contents "out.txt"
      (snd (main Sample.echo ["gen"; "-5"; "out.txt"] []))
    = Some content
    /\ snd (main Sample.echo ["gen"; "-5"; "out.txt"] [])
       = before
           ++ [EvPrint ("Wrote "
                        +++ Text.str_of_nat
                              (List.length (file_lines content))
                        +++ " vectors to " +++ "out.txt")]
    /\ List.length (file_lines content) = Z.to_nat (Z.max 1 (-5)).
Proof.
  apply (reported_count_is_line_count Sample.echo ["gen"; "-5"; "out.txt"]
           (-5) [] (snd (main Sample.echo ["gen"; "-5"; "out.txt"] []))).
  - reflexivity.
  - vm_compute. reflexivity.
Defined.

(** X12.  Without arguments the generator makes 20 vectors and writes
    them to [vectors.txt]: a completed run has started 20 processes and
    the file is a well-formed vector file of 20 lines. *)
Theorem defaults_are_20_vectors_in_vectors_txt
        (pf : platform) (argv : list string) (t t' : trace) :
  List.length argv <= 1 ->
  main pf argv t = (Ok tt, t') ->
  spawned t' = spawned t + 20
  /\ exists content,
       file_contents "vectors.txt" t' = Some content
       /\ well_formed_output 20 content = true.
Proof.
  intros La H.
  assert (Hn : arg_count pf argv = Some 20%Z).
  { destruct argv as [|a [|b r]]; [reflexivity | reflexivity |].
    cbn [List.length] in La. lia. }
  assert (Hp : arg_path argv = "vectors.txt").
  { destruct argv as [|a [|b r]]; [reflexivity | reflexivity |].
    cbn [List.length] in La. lia. }
  apply main_ok_inv in H as (n' & Hn' & _ & G0 & G & ->).
  assert (n' = 20%Z) by congruence. subst n'. rewrite Hp.
  change (Z.to_nat (20 - 1)) with 19 in *.
  split.
  - rewrite !spawned_app, spawned_generation. cbn [spawned output_events].
    lia.
  - rewrite app_assoc, file_contents_output. eexists.
    split; [reflexivity|].
    destruct (written_text_well_formed (generated_lines pf t 19)) as [_ W].
    + discriminate.
    + now apply generated_lines_fields.
    + now rewrite length_generated_lines in W.
Qed.

Lemma defaults_are_20_vectors_in_vectors_txt_witness :
  spawned (snd (main Sample.echo ["gen"] [])) = 0 + 20
  /\ exists content,
       file_contents "vectors.txt" (snd (main Sample.echo ["gen"] []))
       = Some content
       /\ well_formed_output 20 content = true.
Proof.
  apply (defaults_are_20_vectors_in_vectors_txt Sample.echo ["gen"] []
           (snd (main Sample.echo ["gen"] []))).
  - cbn. lia.
  - vm_compute. reflexivity.
Defined.
